(** * SupaCheck: the compliance run, the remediation chat and the login route

    A shallow embedding of the three route handlers of the dashboard
    (run-checks [GET], security-chat [POST], login [POST]) together with
    the properties of the orchestration that the specification states;
    then of the two data routes (users, admin data) and of the handlers of
    the three pages that call the routes (login page, chat window,
    dashboard), with the properties their code shows.

    Every handler is an [async] function that talks to collaborators
    (the Supabase admin client, the chat-completion endpoint, the console)
    and may throw.  It is embedded as a computation in a state-and-exception
    monad over a [World] that holds the [security_logs] table, the trace of
    outbound calls and the console; the collaborators' answers are read from
    an [Upstream] oracle (and an [OpenAI] oracle for the chat), so that every theorem quantifies over everything
    the platform may answer. *)

From stdpp Require Import base option list strings gmap.
From Stdlib Require Import ZArith Lia.
From Stdlib Require QArith.QArith_base.

Local Open Scope string_scope.
Local Open Scope list_scope.

(** ** JavaScript values the handlers look at *)

(** An exception value, or the [error] member of a client reply. *)
Record JsError := mkError { err_name : string; message : string }.

(** What awaiting a call gives: a value, or a thrown exception. *)
Inductive Outcome (A : Type) : Type :=
| Returns (a : A)
| Throws (e : JsError).
Arguments Returns {A} a.
Arguments Throws {A} e.

(** The [{ data, error }] object every supabase-js query resolves to. *)
Record Reply (A : Type) := mkReply { data : option A; error : option JsError }.
Arguments mkReply {A} data error.
Arguments data {A} r.
Arguments error {A} r.

(** Truthiness of an optional string: [undefined] and [''] are falsy. *)
Definition truthy_str (s : option string) : bool :=
  match s with
  | Some s' => negb (String.eqb s' EmptyString)
  | None => false
  end.

(** ** Data model *)

(** [feature: 'RLS' | 'MFA' | 'PITR'] *)
Inductive Feature := RLS | MFA | PITR.

Global Instance Feature_eq_dec : EqDecision Feature.
Proof. solve_decision. Defined.

(** A registered factor of a principal; only the number of them matters. *)
Definition Factor := string.

(** A principal as [auth.admin.listUsers] returns it; [factors] is an
    optional member. *)
Record User := mkUser {
  user_id : string;
  email : option string;
  factors : option (list Factor)
}.

(** Element of [mfaResults]. *)
Record MfaResult := mkMfaResult {
  mfa_id : string;
  mfa_email : option string;
  mfa_enabled : bool
}.

(** A row of the [check_rls_status] remote procedure. *)
Record RlsRow := mkRlsRow {
  table_name : string;
  row_rls_enabled : bool;
  row_has_policies : bool;
  row_policy_count : Z
}.

(** Element of the list [checkRLSStatus] returns. *)
Record RlsResult := mkRlsResult {
  table : string;
  rls_enabled : bool;
  has_policies : bool;
  policy_count : Z
}.

(** A row of the [check_pitr_status] remote procedure. *)
Record PitrRow := mkPitrRow { pitr_enabled : bool }.

(** The object handed to [from('security_logs').insert]. *)
Record InsertRow := mkInsertRow {
  feature : Feature;
  status : bool;
  resource_name : option string;
  suggested_fix : option string;
  auto_fixable : bool
}.

(** A stored row of [security_logs]: the store adds [id] and [timestamp]. *)
Record SecurityLog := mkSecurityLog {
  log_id : nat;
  timestamp : nat;
  log_row : InsertRow
}.

(** ** Outbound calls and the world *)

Inductive Role := system | user | assistant.

Record ChatMessage := mkChatMessage { role : Role; content : string }.

Record ChatRequest := mkChatRequest {
  model : string;
  messages : list ChatMessage;
  temperature : QArith_base.Q;
  max_tokens : nat
}.

Record Choice := mkChoice { choice_message : ChatMessage }.
Record Completion := mkCompletion { choices : list Choice }.

(** One call that leaves the server. *)
Inductive Call :=
| CallListUsers (projectUrl serviceKey : string)
| CallRpc (projectUrl serviceKey : string) (fn : string)
| CallInsert (projectUrl serviceKey : string) (tbl : string) (row : InsertRow)
| CallSelect (projectUrl serviceKey : string) (tbl : string)
             (order_by : string) (ascending : bool) (limit : nat)
| CallChat (req : ChatRequest).

(** What [console.error] received. *)
Record ConsoleLine := mkConsoleLine { label : string; logged : option JsError }.

Record World := mkWorld {
  security_logs : list SecurityLog;  (* the table, oldest row first *)
  clock : nat;                        (* the store's [now()] *)
  outbound : list Call;               (* calls made so far, oldest first *)
  console : list ConsoleLine
}.

(** What [createClient] gives for a pair of credentials: the exception it
    throws (for a project URL that is not an http(s) URL, for one), or a
    client, given by the answers of its collaborators.  An insert is asked
    with the number of calls made before it, so the same row may be
    accepted once and refused later; the select is answered by the store,
    which sees the table.  The calls of supabase-js report a failure in the
    [error] member of the reply they resolve to; an answer that throws is
    kept for what the transport underneath may do. *)
Inductive Upstream :=
| mkUpstream
    (listUsers_reply : Outcome (list User * option JsError))
    (check_rls_status_reply : Outcome (Reply (list RlsRow)))
    (check_pitr_status_reply : Outcome (Reply (list PitrRow)))
    (insert_reply : nat -> InsertRow -> Outcome (option JsError))
    (select_reply : list SecurityLog -> Outcome (Reply (list SecurityLog)))
| NotBuilt (thrown : JsError).

(** The exception of [createClient], when it throws. *)
Definition client_error (up : Upstream) : option JsError :=
  match up with
  | NotBuilt e => Some e
  | _ => None
  end.

(** The answers of the collaborators.  A client that was not built answers
    nothing: asking one is only ever the exception that kept it from being
    built. *)
Definition listUsers_reply (up : Upstream) : Outcome (list User * option JsError) :=
  match up with
  | mkUpstream reply _ _ _ _ => reply
  | NotBuilt e => Throws e
  end.

Definition check_rls_status_reply (up : Upstream) : Outcome (Reply (list RlsRow)) :=
  match up with
  | mkUpstream _ reply _ _ _ => reply
  | NotBuilt e => Throws e
  end.

Definition check_pitr_status_reply (up : Upstream) : Outcome (Reply (list PitrRow)) :=
  match up with
  | mkUpstream _ _ reply _ _ => reply
  | NotBuilt e => Throws e
  end.

Definition insert_reply (up : Upstream) (n : nat) (row : InsertRow)
  : Outcome (option JsError) :=
  match up with
  | mkUpstream _ _ _ reply _ => reply n row
  | NotBuilt e => Throws e
  end.

Definition select_reply (up : Upstream) (table : list SecurityLog)
  : Outcome (Reply (list SecurityLog)) :=
  match up with
  | mkUpstream _ _ _ _ reply => reply table
  | NotBuilt e => Throws e
  end.

(** The hosted chat-completion endpoint. *)
Definition OpenAI := ChatRequest -> Outcome Completion.

(** The platform, with the client library, decides what [createClient]
    gives for given credentials. *)
Definition Platform := string -> string -> Upstream.

(** ** The monad of handlers *)

Definition M (A : Type) : Type := World -> Outcome A * World.

Definition ret {A} (a : A) : M A := fun w => (Returns a, w).

Definition throw {A} (e : JsError) : M A := fun w => (Throws e, w).

Definition bind {A B} (m : M A) (k : A -> M B) : M B :=
  fun w =>
    match m w with
    | (Returns a, w') => k a w'
    | (Throws e, w') => (Throws e, w')
    end.

(** [try { body } catch (error) { handler }] *)
Definition try_catch {A} (body : M A) (handler : JsError -> M A) : M A :=
  fun w =>
    match body w with
    | (Returns a, w') => (Returns a, w')
    | (Throws e, w') => handler e w'
    end.

Declare Scope js_scope.
Delimit Scope js_scope with js.
Notation "'let*' x ':=' m 'in' k" := (bind m (fun x => k))
  (at level 10, x pattern, m at level 100, k at level 200) : js_scope.
Notation "m ';;' k" := (bind m (fun _ => k))
  (at level 100, k at level 200, right associativity) : js_scope.
Local Open Scope js_scope.

(** [for (const x of xs) { await body(x) }] *)
Fixpoint for_of {A} (xs : list A) (body : A -> M unit) : M unit :=
  match xs with
  | [] => ret tt
  | x :: rest => body x ;; for_of rest body
  end.

(** Awaiting a collaborator's answer. *)
Definition await {A} (o : Outcome A) : M A :=
  fun w => (o, w).

(** The world after a call has left the server. *)
Definition called (call : Call) (w : World) : World :=
  mkWorld (security_logs w) (S (clock w)) (outbound w ++ [call]) (console w).

(** The world after the store accepted a row. *)
Definition stored (row : InsertRow) (w : World) : World :=
  mkWorld (security_logs w ++ [mkSecurityLog (S (length (security_logs w))) (clock w) row])
          (clock w) (outbound w) (console w).

(** The world after a [console.error]. *)
Definition noted (l : string) (e : option JsError) (w : World) : World :=
  mkWorld (security_logs w) (clock w) (outbound w) (console w ++ [mkConsoleLine l e]).

Definition record_call (c : Call) : M unit :=
  fun w => (Returns tt, called c w).

Definition console_error (l : string) (e : option JsError) : M unit :=
  fun w => (Returns tt, noted l e w).

Definition calls_so_far : M nat := fun w => (Returns (length (outbound w)), w).

(** The store accepts a row: it numbers and stamps it. *)
Definition store_row (row : InsertRow) : M unit :=
  fun w => (Returns tt, stored row w).

Definition read_logs : M (list SecurityLog) := fun w => (Returns (security_logs w), w).

(** Iterating over or mapping a [null] data member is a TypeError. *)
Definition TypeError (msg : string) : JsError := mkError "TypeError" msg.

Definition iterable {A} (d : option (list A)) (what : string) : M (list A) :=
  match d with
  | Some xs => ret xs
  | None => throw (TypeError (what +:+ " is not iterable"))
  end.

(** The world before anything happened. *)
Definition start : World := mkWorld [] 0 [] [].

(** ** The run-checks route *)

Module RunChecks.

(** The admin client: the credentials it was built from and the answers
    of its collaborators. *)
Record Client := mkClient {
  client_url : string;
  client_key : string;
  upstream : Upstream
}.

(** [createClient(projectUrl, serviceKey)]: it makes no call, and throws
    when the library cannot build a client from the credentials. *)
Definition createClient (platform : Platform) (projectUrl serviceKey : string) : M Client :=
  match client_error (platform projectUrl serviceKey) with
  | Some e => throw e
  | None => ret (mkClient projectUrl serviceKey (platform projectUrl serviceKey))
  end.

(** [supabase.auth.admin.listUsers()] *)
Definition listUsers (supabase : Client) : M (list User * option JsError) :=
  record_call (CallListUsers (client_url supabase) (client_key supabase)) ;;
  await (listUsers_reply (upstream supabase)).

(** [supabase.rpc('check_rls_status')] *)
Definition rpc_check_rls_status (supabase : Client) : M (Reply (list RlsRow)) :=
  record_call (CallRpc (client_url supabase) (client_key supabase) "check_rls_status") ;;
  await (check_rls_status_reply (upstream supabase)).

(** [supabase.rpc('check_pitr_status')] *)
Definition rpc_check_pitr_status (supabase : Client) : M (Reply (list PitrRow)) :=
  record_call (CallRpc (client_url supabase) (client_key supabase) "check_pitr_status") ;;
  await (check_pitr_status_reply (upstream supabase)).

(** [supabase.from('security_logs').insert(row)]: the reply's [error] is
    returned to a caller that never looks at it. *)
Definition insert_security_logs (supabase : Client) (row : InsertRow) : M (option JsError) :=
  let* n := calls_so_far in
  record_call (CallInsert (client_url supabase) (client_key supabase) "security_logs" row) ;;
  let* refused := await (insert_reply (upstream supabase) n row) in
  match refused with
  | None => store_row row ;; ret None
  | Some e => ret (Some e)
  end.

(** [from('security_logs').select('*').order('timestamp', { ascending:
    false }).limit(10)]: the handler states the query; the rows are the
    store's to choose. *)
Definition select_recent_logs (supabase : Client) : M (Reply (list SecurityLog)) :=
  record_call (CallSelect (client_url supabase) (client_key supabase) "security_logs"
                          "timestamp" false 10) ;;
  let* table := read_logs in
  await (select_reply (upstream supabase) table).

Definition suggestedFixes (f : Feature) : string :=
  match f with
  | RLS => "Enable RLS with: ALTER TABLE table_name ENABLE ROW LEVEL SECURITY; and add appropriate policies"
  | MFA => "Enable MFA in authentication settings and require users to set up 2FA"
  | PITR => "Enable PITR in your project settings for better backup and recovery options"
  end.

Definition autoFixable (f : Feature) : bool :=
  match f with
  | RLS => true
  | MFA => false
  | PITR => false
  end.

(** The row [logSecurityIssue] builds. *)
Definition issue_row (feature : Feature) (status : bool) (resourceName : option string)
  : InsertRow :=
  mkInsertRow feature status resourceName
    (if negb status then Some (suggestedFixes feature) else None)
    (if negb status then autoFixable feature else false).

Definition logSecurityIssue (supabase : Client) (feature : Feature) (status : bool)
    (resourceName : option string) : M unit :=
  insert_security_logs supabase (issue_row feature status resourceName) ;;
  ret tt.

(** The finding returned when the remote procedure reports an error. *)
Definition rls_fallback : list RlsResult :=
  [mkRlsResult "posts_table" false false 0].

Definition rls_result_of (t : RlsRow) : RlsResult :=
  mkRlsResult (table_name t) (row_rls_enabled t) (row_has_policies t) (row_policy_count t).

Definition checkRLSStatus (supabase : Client) : M (list RlsResult) :=
  let* reply := rpc_check_rls_status supabase in
  match error reply with
  | Some rlsError =>
      console_error "RLS check failed:" (Some rlsError) ;;
      ret rls_fallback
  | None =>
      let* rlsData := iterable (data reply) "rlsData" in
      for_of rlsData (fun t =>
        logSecurityIssue supabase RLS
          (row_rls_enabled t && row_has_policies t) (Some (table_name t))) ;;
      ret (map rls_result_of rlsData)
  end.

(** [Boolean(user.factors?.length > 0)] *)
Definition has_factor (u : User) : bool :=
  match factors u with
  | Some fs => Nat.ltb 0 (length fs)
  | None => false
  end.

Definition mfa_result_of (u : User) : MfaResult :=
  mkMfaResult (user_id u) (email u) (has_factor u).

(** [pitrData?.[0]?.pitr_enabled || false] *)
Definition pitr_of (pitrData : option (list PitrRow)) : bool :=
  match pitrData with
  | Some (r :: _) => pitr_enabled r || false
  | _ => false
  end.

(** Bodies of the JSON responses of the route. *)
Inductive Body :=
| Report (MFA_ : list MfaResult) (RLS_ : list RlsResult) (PITR_ : bool)
         (logs : Reply (list SecurityLog))
| Failure (error_text : string) (details : option JsError).

Record Response := mkResponse { http_status : nat; body : Body }.

(** The request, as far as the handler reads it: its cookies. *)
Record Request := mkRequest { cookies : gmap string string }.

Definition run_checks (supabase : Client) : M Response :=
  let* listed := listUsers supabase in
  let '(users, userError) := listed in
  match userError with
  | Some e => throw e
  | None =>
      let mfaResults := map mfa_result_of users in
      for_of mfaResults (fun u =>
        logSecurityIssue supabase MFA (mfa_enabled u) (mfa_email u)) ;;
      let* rlsResults := checkRLSStatus supabase in
      let* pitr := rpc_check_pitr_status supabase in
      match error pitr with
      | Some pitrError => console_error "PITR check error:" (Some pitrError)
      | None => ret tt
      end ;;
      logSecurityIssue supabase PITR (pitr_of (data pitr)) None ;;
      let* logs := select_recent_logs supabase in
      ret (mkResponse 200 (Report mfaResults rlsResults (pitr_of (data pitr)) logs))
  end.

Definition GET (platform : Platform) (req : Request) : M Response :=
  let projectUrl := cookies req !! "projectUrl" in
  let serviceKey := cookies req !! "serviceKey" in
  if negb (truthy_str projectUrl) || negb (truthy_str serviceKey) then
    ret (mkResponse 401 (Failure "Not authenticated" None))
  else
    let* supabase :=
      createClient platform (default EmptyString projectUrl)
                   (default EmptyString serviceKey) in
    try_catch (run_checks supabase)
      (fun error =>
         console_error "Error running checks:" (Some error) ;;
         ret (mkResponse 500 (Failure (message error) (Some error)))).

(** *** Vocabulary of the properties *)

(** Both session cookies are present and not empty. *)
Definition authenticated (req : Request) : bool :=
  truthy_str (cookies req !! "projectUrl") && truthy_str (cookies req !! "serviceKey").

(** The client [GET] asks [createClient] for: the credentials of the
    request and what the platform gives for them. *)
Definition client_of (platform : Platform) (req : Request) : Client :=
  mkClient (default EmptyString (cookies req !! "projectUrl"))
           (default EmptyString (cookies req !! "serviceKey"))
           (platform (default EmptyString (cookies req !! "projectUrl"))
                     (default EmptyString (cookies req !! "serviceKey"))).

(** The [catch] block of [GET]. *)
Definition on_error (error : JsError) : M Response :=
  console_error "Error running checks:" (Some error) ;;
  ret (mkResponse 500 (Failure (message error) (Some error))).

Definition insert_call (c : Client) (row : InsertRow) : Call :=
  CallInsert (client_url c) (client_key c) "security_logs" row.

Definition list_call (c : Client) : Call :=
  CallListUsers (client_url c) (client_key c).

Definition rls_call (c : Client) : Call :=
  CallRpc (client_url c) (client_key c) "check_rls_status".

Definition pitr_call (c : Client) : Call :=
  CallRpc (client_url c) (client_key c) "check_pitr_status".

Definition select_call (c : Client) : Call :=
  CallSelect (client_url c) (client_key c) "security_logs" "timestamp" false 10.

(** No insert throws. *)
Definition inserts_return (up : Upstream) : Prop :=
  forall n row, exists r, insert_reply up n row = Returns r.

(** The store accepts every row. *)
Definition inserts_accepted (up : Upstream) : Prop :=
  forall n row, insert_reply up n row = Returns None.

(** The findings [checkRLSStatus] returns for a reply it can read. *)
Definition rls_findings (reply : Reply (list RlsRow)) : list RlsResult :=
  match error reply with
  | Some _ => rls_fallback
  | None => map rls_result_of (default [] (data reply))
  end.

(** A reply the handler can read: it has an error or it has data. *)
Definition readable {A} (reply : Reply A) : Prop :=
  error reply = None -> is_Some (data reply).

Definition is_insert (c : Call) : Prop :=
  match c with
  | CallInsert _ _ _ _ => True
  | _ => False
  end.

(** What a run of log writes does to the table: rows satisfying [P] are
    appended, nothing is changed or removed. *)
Definition appended (P : InsertRow -> Prop) (w w' : World) : Prop :=
  exists new_rows,
    security_logs w' = security_logs w ++ new_rows
    /\ Forall (fun rec => P (log_row rec)) new_rows.

(** The row logged for a relation the introspection reported. *)
Definition rls_row_of (t : RlsRow) : InsertRow :=
  issue_row RLS (row_rls_enabled t && row_has_policies t) (Some (table_name t)).

(** A call made with the client's credentials, on the objects a run
    touches: the listing, the two status procedures, the log table. *)
Definition uses_client (c : Client) (call : Call) : Prop :=
  match call with
  | CallListUsers u k => u = client_url c /\ k = client_key c
  | CallRpc u k fn =>
      u = client_url c /\ k = client_key c
      /\ (fn = "check_rls_status" \/ fn = "check_pitr_status")
  | CallInsert u k tbl _ => u = client_url c /\ k = client_key c /\ tbl = "security_logs"
  | CallSelect u k tbl _ _ _ =>
      u = client_url c /\ k = client_key c /\ tbl = "security_logs"
  | CallChat _ => False
  end.

(** What a run does to the trace: calls satisfying [P] are appended. *)
Definition traced (P : Call -> Prop) (w w' : World) : Prop :=
  exists calls, outbound w' = outbound w ++ calls /\ Forall P calls.

(** The shape of a row of the log. *)
Definition well_formed_row (row : InsertRow) : Prop :=
  (suggested_fix row = None <-> status row = true)
  /\ (auto_fixable row = true <-> feature row = RLS /\ status row = false)
  /\ (feature row = PITR -> resource_name row = None)
  /\ (feature row = RLS -> is_Some (resource_name row)).

(** The row logged for a principal. *)
Definition mfa_row_of (u : User) : InsertRow :=
  issue_row MFA (has_factor u) (email u).


(** The contract of the client's replies: one that reports an error
    carries no data. *)
Definition failure_without_data {A} (reply : Reply A) : Prop :=
  is_Some (error reply) -> data reply = None.







(** *** Scenarios *)

Definition accept_all : nat -> InsertRow -> Outcome (option JsError) :=
  fun _ _ => Returns None.

(** A store that answers the select with its ten latest rows, the latest
    first. *)
Definition latest_ten (table : list SecurityLog) : Outcome (Reply (list SecurityLog)) :=
  Returns (mkReply (Some (take 10 (reverse table))) None).

Definition logged_in : Request :=
  mkRequest (<["projectUrl" := "https://demo.supabase.co"]>
             (<["serviceKey" := "eyJ-service-role"]> ∅)).

Definition alice : User := mkUser "u1" (Some "alice@example.com") (Some ["totp-1"]).
Definition bob : User := mkUser "u2" (Some "bob@example.com") (Some []).

(** Scenario A: two principals, relation [orders] with two policies, the
    recovery probe answers [true]. *)
Definition scenario_A : Platform := fun _ _ =>
  mkUpstream (Returns ([alice; bob], None))
             (Returns (mkReply (Some [mkRlsRow "orders" true true 2]) None))
             (Returns (mkReply (Some [mkPitrRow true]) None))
             accept_all latest_ten.

(** Scenario B: the introspection of relation [logs] reports an error. *)
Definition scenario_B : Platform := fun _ _ =>
  mkUpstream (Returns ([], None))
             (Returns (mkReply None (Some (mkError "PostgrestError" "permission denied for table logs"))))
             (Returns (mkReply (Some [mkPitrRow true]) None))
             accept_all latest_ten.

(** The listing of principals fails on the network: the auth client reports
    the failed fetch in the reply's error member.  The key is accepted, as
    the two status procedures show. *)
Definition network_error : JsError := mkError "AuthRetryableFetchError" "fetch failed".

Definition listing_unreachable : Platform := fun _ _ =>
  mkUpstream (Returns ([], Some network_error))
             (Returns (mkReply (Some [mkRlsRow "orders" true true 2]) None))
             (Returns (mkReply (Some [mkPitrRow true]) None))
             accept_all latest_ten.

(** The recovery probe reports an error, so it answers no data. *)
Definition pitr_refused : Platform := fun _ _ =>
  mkUpstream (Returns ([alice; bob], None))
             (Returns (mkReply (Some [mkRlsRow "orders" true true 2]) None))
             (Returns (mkReply None (Some (mkError "PostgrestError"
                                             "Could not find the function check_pitr_status"))))
             accept_all latest_ten.

(** A client library that builds a client only from an http(s) URL. *)
Definition invalid_url : JsError :=
  mkError "Error" "Invalid supabaseUrl: Must be a valid HTTP or HTTPS URL.".

Definition needs_url : Platform := fun projectUrl serviceKey =>
  if String.prefix "https://" projectUrl || String.prefix "http://" projectUrl
  then scenario_A projectUrl serviceKey
  else NotBuilt invalid_url.


(** The platform refuses the service key. *)
Definition invalid_key : JsError := mkError "AuthApiError" "Invalid API key".

Definition key_refused : Platform := fun _ _ =>
  mkUpstream (Returns ([], Some invalid_key))
             (Returns (mkReply None (Some invalid_key)))
             (Returns (mkReply None (Some invalid_key)))
             (fun _ _ => Returns (Some invalid_key))
             (fun _ => Returns (mkReply None (Some invalid_key))).

(** The introspection answers neither an error nor data. *)
Definition no_data : Platform := fun _ _ =>
  mkUpstream (Returns ([alice], None))
             (Returns (mkReply None None))
             (Returns (mkReply (Some [mkPitrRow true]) None))
             accept_all latest_ten.

(** Row security is switched on for [drafts], which has no policy. *)
Definition no_policy : Platform := fun _ _ =>
  mkUpstream (Returns ([], None))
             (Returns (mkReply (Some [mkRlsRow "drafts" true false 0]) None))
             (Returns (mkReply (Some [mkPitrRow false]) None))
             accept_all latest_ten.

(** The remote procedure answers a row whose two policy members disagree. *)
Definition inconsistent_row : Platform := fun _ _ =>
  mkUpstream (Returns ([], None))
             (Returns (mkReply (Some [mkRlsRow "orders" true true 0]) None))
             (Returns (mkReply (Some [mkPitrRow true]) None))
             accept_all latest_ten.

End RunChecks.

(** ** The security-chat route *)

Module SecurityChat.

(** The double-quote character of the reference texts. *)
Definition dq : string :=
  String (Ascii.Ascii false true false false false true false false) EmptyString.

Definition securityDocs_RLS : string :=
  "
    Enabling Row Level Security (RLS) in Supabase Dashboard:
    1. Navigate to Authentication > Policies in your Supabase dashboard
    2. Find the table you want to secure
    3. Click " +:+ dq +:+ "Enable RLS" +:+ dq +:+ " button
    4. Add policies through the UI:
       - Click " +:+ dq +:+ "New Policy" +:+ dq +:+ "
       - Use policy templates or create custom ones
       - Set who can access what data
    
    Common settings:
    - Enable read-only access
    - Allow authenticated users only
    - Enable full access for authenticated users
    - Custom policy with specific conditions
  ".

Definition securityDocs_MFA : string :=
  "
    Setting up Multi-Factor Authentication (MFA) in Supabase:
    1. Go to Authentication > Providers in dashboard
    2. Enable MFA in authentication settings
    3. Guide users through MFA setup:
       - Users go to account settings
       - Click enable MFA
       - Scan QR code with authenticator app
       - Enter verification code
    
    Dashboard settings:
    - Optional vs Required MFA
    - Allowed authentication factors
    - Recovery options
    - User management
  ".

Definition securityDocs_PITR : string :=
  "
    Enabling Point in Time Recovery (PITR) in Supabase:
    1. Go to Database > Backups in dashboard
    2. Find PITR section
    3. Enable PITR feature
    4. Select retention period
    
    Dashboard options:
    - Backup frequency
    - Retention period selection
    - Recovery point status
    - Backup health monitoring
  ".

(** [securityDocs[feature]] *)
Definition securityDocs (f : Feature) : string :=
  match f with
  | RLS => securityDocs_RLS
  | MFA => securityDocs_MFA
  | PITR => securityDocs_PITR
  end.

(** A transcript entry as the chat window sends it. *)
Record Message := mkMessage {
  msg_role : Role;
  msg_content : string;
  msg_timestamp : string
}.

(** The parsed request body [{ messages, feature, resourceName }]. *)
Record ChatBody := mkChatBody {
  body_messages : list Message;
  body_feature : Feature;
  resourceName : option string
}.

(** [resourceName ? `Specifically for resource: ${resourceName}` : ''] *)
Definition resource_line (resourceName : option string) : string :=
  if truthy_str resourceName
  then "Specifically for resource: " +:+ default EmptyString resourceName
  else EmptyString.

Definition systemPrompt (feature : Feature) (resourceName : option string) : string :=
  "You are a Supabase security expert assistant. You help users fix security issues and implement best practices.
    Current context: " +:+ securityDocs feature +:+ "
    " +:+ resource_line resourceName +:+ "
    
    Provide specific, actionable advice based on Supabase documentation. Include code examples when relevant.".

(** [{ role: msg.role, content: msg.content }] *)
Definition forwarded (msg : Message) : ChatMessage :=
  mkChatMessage (msg_role msg) (msg_content msg).

Definition chat_request (b : ChatBody) : ChatRequest :=
  mkChatRequest "gpt-4"
    (mkChatMessage system (systemPrompt (body_feature b) (resourceName b))
       :: map forwarded (body_messages b))
    (QArith_base.Qmake 7 10) 500.

(** [openai.chat.completions.create(request)] *)
Definition chat_completions_create (openai : OpenAI) (request : ChatRequest) : M Completion :=
  record_call (CallChat request) ;;
  await (openai request).

(** [completion.choices[0].message.content]; reading [message] of a missing
    first choice is a TypeError. *)
Definition first_content (completion : Completion) : M string :=
  match choices completion with
  | c :: _ => ret (content (choice_message c))
  | [] => throw (TypeError "Cannot read properties of undefined (reading 'message')")
  end.

Inductive Body :=
| Answer (message_text : string)
| Failure (error_text : string).

Record Response := mkResponse { http_status : nat; body : Body }.

(** [parsed] is what [await req.json()] gives. *)
Definition POST (openai : OpenAI) (parsed : Outcome ChatBody) : M Response :=
  try_catch
    (let* b := await parsed in
     let* completion := chat_completions_create openai (chat_request b) in
     let* text := first_content completion in
     ret (mkResponse 200 (Answer text)))
    (fun error =>
       console_error "Error in security chat:" (Some error) ;;
       ret (mkResponse 500 (Failure "Failed to process chat message"))).

(** *** Vocabulary of the properties *)

(** The fixed text around the reference block in the system message. *)
Definition prompt_head : string :=
  "You are a Supabase security expert assistant. You help users fix security issues and implement best practices.
    Current context: ".

Definition prompt_tail : string :=
  "
    
    Provide specific, actionable advice based on Supabase documentation. Include code examples when relevant.".

(** The system message: the seed of every request. *)
Definition seed (feature : Feature) (resourceName : option string) : ChatMessage :=
  mkChatMessage system (systemPrompt feature resourceName).

(** *** A session on relation [orders] *)

Definition opening : Message :=
  mkMessage assistant
    "I'm here to help you enable RLS for orders. How to enable RLS for orders"
    "2025-01-01T10:00:00.000Z".

Definition question : Message :=
  mkMessage user "Where is the button?" "2025-01-01T10:00:05.000Z".

Definition orders_body : ChatBody :=
  mkChatBody [opening; question] RLS (Some "orders").

Definition canned : OpenAI := fun _ =>
  Returns (mkCompletion [mkChoice (mkChatMessage assistant "Open Authentication > Policies.")]).

(** A world in which a compliance run and an earlier chat turn took place. *)
Definition later : World :=
  (POST canned (Returns (mkChatBody [opening] RLS (Some "orders")))
        (RunChecks.GET RunChecks.scenario_A RunChecks.logged_in start).2).2.

End SecurityChat.

(** ** The login route *)

Module Login.

(** A parsed JSON document. *)
#[local] Set Warnings "-register-all".
Inductive Json :=
| JNull
| JBool (b : bool)
| JNumber (z : Z)
| JString (s : string)
| JArray (items : list Json)
| JObject (members : list (string * Json)).

(** Member [k] of a parsed object: the last occurrence of a repeated key is
    the one the parser keeps. *)
Fixpoint member (k : string) (members : list (string * Json)) : option Json :=
  match members with
  | [] => None
  | (k', v) :: rest =>
      match member k rest with
      | Some later => Some later
      | None => if String.eqb k k' then Some v else None
      end
  end.

(** [const { k } = value]: [undefined] is [None]; a [null] value cannot be
    destructured. *)
Definition property (k : string) (value : Json) : option Json :=
  match value with
  | JObject members => member k members
  | _ => None
  end.

Definition destructure (value : Json) : M Json :=
  match value with
  | JNull => throw (TypeError "Cannot destructure property 'projectUrl' of null")
  | v => ret v
  end.

(** [!!v] *)
Definition truthy (v : option Json) : bool :=
  match v with
  | None => false
  | Some JNull => false
  | Some (JBool b) => b
  | Some (JNumber z) => negb (Z.eqb z 0)
  | Some (JString s) => negb (String.eqb s EmptyString)
  | Some (JArray _) => true
  | Some (JObject _) => true
  end.

(** A cookie as [response.cookies.set(name, value, options)] records it. *)
Record Cookie := mkCookie {
  value : Json;
  httpOnly : bool;
  secure : bool;
  sameSite : string;
  path : string
}.

Inductive Body :=
| Message (message_text : string)
| Failure (error_text : string).

Record Response := mkResponse {
  http_status : nat;
  body : Body;
  cookies : gmap string Cookie
}.

(** [cookies.set(name, value, { httpOnly: true, secure: NODE_ENV ===
    'production', sameSite: 'lax', path: '/' })] *)
Definition set_cookie (NODE_ENV : option string) (name : string) (v : Json)
    (response : Response) : Response :=
  mkResponse (http_status response) (body response)
    (<[name := mkCookie v true (bool_decide (NODE_ENV = Some "production")) "lax" "/"]>
       (cookies response)).

(** [parsed] is what [await req.json()] gives. *)
Definition POST (NODE_ENV : option string) (parsed : Outcome Json) : M Response :=
  try_catch
    (let* json := await parsed in
     let* obj := destructure json in
     let projectUrl := property "projectUrl" obj in
     let serviceKey := property "serviceKey" obj in
     if negb (truthy projectUrl) || negb (truthy serviceKey) then
       ret (mkResponse 400 (Failure "Missing credentials") ∅)
     else
       let response := mkResponse 200 (Message "Login successful") ∅ in
       let response := set_cookie NODE_ENV "projectUrl" (default JNull projectUrl) response in
       let response := set_cookie NODE_ENV "serviceKey" (default JNull serviceKey) response in
       ret response)
    (fun error =>
       console_error "Login error:" (Some error) ;;
       ret (mkResponse 500 (Failure "Login failed") ∅)).

(** *** Vocabulary of the properties *)

Definition credentials (projectUrl serviceKey : string) : Json :=
  JObject [("projectUrl", JString projectUrl); ("serviceKey", JString serviceKey)].

(** The cookie the handler sets for a value. *)
Definition session_cookie (NODE_ENV : option string) (v : Json) : Cookie :=
  mkCookie v true (bool_decide (NODE_ENV = Some "production")) "lax" "/".

(** The text a cookie holds for the value it was set to: a string as it
    is, any other value as its conversion to string, [ToString]. *)
Definition cookie_text (ToString : Json -> string) (v : Json) : string :=
  match v with
  | JString s => s
  | v => ToString v
  end.

(** The cookies the browser sends back on the next request: the text of
    every cookie it was given. *)
Definition sent_back (ToString : Json -> string) (response : Response)
  : RunChecks.Request :=
  RunChecks.mkRequest ((fun c => cookie_text ToString (value c)) <$> cookies response).

(** The response of a login the handler answered. *)
Definition answered (o : Outcome Response) : Response :=
  match o with
  | Returns r => r
  | Throws _ => mkResponse 500 (Failure "Login failed") ∅
  end.

End Login.

(** ** Computations over a state of their own *)

(** The monad of the handlers, over any state [S]: the two data routes
    below and the pages keep a state that is not the [World] of the runs. *)
Module Eff.

Definition t (S A : Type) : Type := S -> Outcome A * S.

Definition ret {S A} (a : A) : t S A := fun s => (Returns a, s).

Definition throw {S A} (e : JsError) : t S A := fun s => (Throws e, s).

Definition bind {S A B} (m : t S A) (k : A -> t S B) : t S B :=
  fun s =>
    match m s with
    | (Returns a, s') => k a s'
    | (Throws e, s') => (Throws e, s')
    end.

(** [try { body } catch (error) { handler }] *)
Definition try_catch {S A} (body : t S A) (handler : JsError -> t S A) : t S A :=
  fun s =>
    match body s with
    | (Returns a, s') => (Returns a, s')
    | (Throws e, s') => handler e s'
    end.

(** [try { body } finally { finalizer }], for a finalizer that cannot throw. *)
Definition try_finally {S A} (body : t S A) (finalizer : S -> S) : t S A :=
  fun s => let '(o, s') := body s in (o, finalizer s').

(** A state update, such as a React setter. *)
Definition modify {S} (f : S -> S) : t S unit := fun s => (Returns tt, f s).

Definition await {S A} (o : Outcome A) : t S A := fun s => (o, s).

End Eff.

Declare Scope eff_scope.
Delimit Scope eff_scope with eff.
Notation "'let*' x ':=' m 'in' k" := (Eff.bind m (fun x => k))
  (at level 10, x pattern, m at level 100, k at level 200) : eff_scope.
Notation "m ';;' k" := (Eff.bind m (fun _ => k))
  (at level 100, k at level 200, right associativity) : eff_scope.

(** ** The users route and the admin data route *)

Module DataRoutes.
Import Login.
Local Open Scope eff_scope.

(** [process.env], as far as the two routes read it. *)
Record Env := mkEnv {
  SUPABASE_URL : option string;
  SUPABASE_SERVICE_ROLE_KEY : option string;
  SUPABASE_ACCESS_TOKEN : option string
}.

(** [`${v}`]: an unset variable is spelled [undefined]. *)
Definition interpolate (v : option string) : string := default "undefined" v.

(** The argument of [fetch]: the address and the headers, in the order the
    source writes them; a header given an unset variable has no value. *)
Record HttpRequest := mkHttpRequest {
  url : string;
  headers : list (string * option string)
}.

(** What [fetch] resolves to: the status, and what [response.json()] gives. *)
Record HttpResponse := mkHttpResponse {
  upstream_status : nat;
  json : Outcome Json
}.

Definition Fetch := HttpRequest -> Outcome HttpResponse.

(** The state of the two routes: the requests sent, and the console. *)
Record Net := mkNet {
  fetched : list HttpRequest;
  net_console : list ConsoleLine
}.

Definition fetch (net : Fetch) (request : HttpRequest) : Eff.t Net HttpResponse :=
  Eff.modify (fun s => mkNet (fetched s ++ [request]) (net_console s)) ;;
  Eff.await (net request).

Definition console_error (l : string) (e : option JsError) : Eff.t Net unit :=
  Eff.modify (fun s => mkNet (fetched s) (net_console s ++ [mkConsoleLine l e])).

Inductive Body :=
| Users (users : Json)
| UsersAndProjects (users projects : Json)
| Failure (error_text : string).

Record Response := mkResponse { http_status : nat; body : Body }.

Definition users_request (env : Env) : HttpRequest :=
  mkHttpRequest (interpolate (SUPABASE_URL env) +:+ "/rest/v1/users")
    [ ("Authorization", Some ("Bearer " +:+ interpolate (SUPABASE_SERVICE_ROLE_KEY env)));
      ("apikey", SUPABASE_SERVICE_ROLE_KEY env) ].

(** A session of the cookie client; the routes only test that there is one. *)
Record Session := mkSession { access_token : string }.

(** The client of the cookies, as far as the routes use it: what awaiting
    [supabase.auth.getSession()] gives, reduced to [data.session]. *)
Record CookieClient := mkCookieClient { getSession : Outcome (option Session) }.

(** [createRouteHandlerClient({ cookies })]: [made] is what the call gives,
    the client or the exception it throws (NEXT_PUBLIC_SUPABASE_URL or
    NEXT_PUBLIC_SUPABASE_ANON_KEY is not set).  Building the client sends
    nothing. *)
Definition createRouteHandlerClient (made : Outcome CookieClient)
  : Eff.t Net CookieClient :=
  Eff.await made.

(** The users route.  The client is built before the [try] block and is
    never used. *)
Definition users_GET (env : Env) (made : Outcome CookieClient) (net : Fetch)
  : Eff.t Net Response :=
  createRouteHandlerClient made ;;
  Eff.try_catch
    (let* response := fetch net (users_request env) in
     let* users := Eff.await (json response) in
     Eff.ret (mkResponse 200 (Users users)))
    (fun error => Eff.ret (mkResponse 500 (Failure "Failed to fetch users"))).

Definition auth_users_request (env : Env) : HttpRequest :=
  mkHttpRequest (interpolate (SUPABASE_URL env) +:+ "/rest/v1/auth/users")
    [ ("Authorization", Some ("Bearer " +:+ interpolate (SUPABASE_SERVICE_ROLE_KEY env)));
      ("apikey", SUPABASE_SERVICE_ROLE_KEY env) ].

Definition projects_request (env : Env) : HttpRequest :=
  mkHttpRequest "https://api.supabase.com/v1/projects"
    [ ("Authorization", Some ("Bearer " +:+ interpolate (SUPABASE_ACCESS_TOKEN env)));
      ("Content-Type", Some "application/json") ].

(** The admin data route.  The client is built before the [try] block. *)
Definition admin_GET (env : Env) (made : Outcome CookieClient) (net : Fetch)
  : Eff.t Net Response :=
  let* supabase := createRouteHandlerClient made in
  Eff.try_catch
    (let* session := Eff.await (getSession supabase) in
     match session with
     | None => Eff.ret (mkResponse 401 (Failure "Not authenticated"))
     | Some _ =>
         let* usersResponse := fetch net (auth_users_request env) in
         let* projectsResponse := fetch net (projects_request env) in
         let* users := Eff.await (json usersResponse) in
         let* projects := Eff.await (json projectsResponse) in
         Eff.ret (mkResponse 200 (UsersAndProjects users projects))
     end)
    (fun error =>
       console_error "Admin data fetch error:" (Some error) ;;
       Eff.ret (mkResponse 500 (Failure "Failed to fetch data"))).

(** *** Vocabulary of the properties *)

(** A client that was built, answering [getSession] as given. *)
Definition built (getSession : Outcome (option Session)) : Outcome CookieClient :=
  Returns (mkCookieClient getSession).

(** The exception of [createRouteHandlerClient] when the public URL or the
    anonymous key is not configured. *)
Definition not_configured : JsError :=
  mkError "Error"
    "either NEXT_PUBLIC_SUPABASE_URL and NEXT_PUBLIC_SUPABASE_ANON_KEY env variables or supabaseUrl and supabaseKey are required!".

Definition quiet : Net := mkNet [] [].

(** The state after a request was sent, and after a line was written. *)
Definition sent (request : HttpRequest) (s : Net) : Net :=
  mkNet (fetched s ++ [request]) (net_console s).

Definition complained (l : string) (e : JsError) (s : Net) : Net :=
  mkNet (fetched s) (net_console s ++ [mkConsoleLine l (Some e)]).

(** The value a request gives to a header. *)
Fixpoint header (name : string) (hs : list (string * option string)) : option string :=
  match hs with
  | [] => None
  | (n, v) :: rest => if String.eqb n name then v else header name rest
  end.

Definition configured : Env :=
  mkEnv (Some "https://demo.supabase.co") (Some "service-role-key") (Some "access-token").

(** An upstream that refuses the key with status 401 and a JSON body. *)
Definition refusing : Fetch := fun _ =>
  Returns (mkHttpResponse 401 (Returns (JObject [("message", JString "Invalid API key")]))).

End DataRoutes.

(** ** Strings of the pages *)

(** A string stands for the UTF-8 bytes of the text the page holds. *)
Module JsString.

Definition bytes (codes : list nat) : list Ascii.ascii := map Ascii.ascii_of_nat codes.

(** The code points [String.prototype.trim] removes: WhiteSpace (tab, VT,
    FF, the space separators, the byte order mark) and LineTerminator. *)
Definition white_space : list (list Ascii.ascii) :=
  [ bytes [9]; bytes [10]; bytes [11]; bytes [12]; bytes [13]; bytes [32];
    bytes [194; 160];
    bytes [225; 154; 128];
    bytes [226; 128; 128]; bytes [226; 128; 129]; bytes [226; 128; 130];
    bytes [226; 128; 131]; bytes [226; 128; 132]; bytes [226; 128; 133];
    bytes [226; 128; 134]; bytes [226; 128; 135]; bytes [226; 128; 136];
    bytes [226; 128; 137]; bytes [226; 128; 138];
    bytes [226; 128; 168]; bytes [226; 128; 169];
    bytes [226; 128; 175];
    bytes [226; 129; 159];
    bytes [227; 128; 128];
    bytes [239; 187; 191] ].

(** [l] without its prefix [p]. *)
Fixpoint strip (p l : list Ascii.ascii) : option (list Ascii.ascii) :=
  match p, l with
  | [], _ => Some l
  | a :: p', b :: l' => if Ascii.eqb a b then strip p' l' else None
  | _ :: _, [] => None
  end.

(** [l] without the first of [ps] that is a prefix of it. *)
Fixpoint strip_any (ps : list (list Ascii.ascii)) (l : list Ascii.ascii)
  : option (list Ascii.ascii) :=
  match ps with
  | [] => None
  | p :: rest =>
      match strip p l with
      | Some l' => Some l'
      | None => strip_any rest l
      end
  end.

(** Stripping as long as something strips; [fuel] bounds the steps. *)
Fixpoint strip_all (fuel : nat) (ps : list (list Ascii.ascii)) (l : list Ascii.ascii)
  : list Ascii.ascii :=
  match fuel with
  | 0 => l
  | S n =>
      match strip_any ps l with
      | Some l' => strip_all n ps l'
      | None => l
      end
  end.

Definition trimStart_bytes (l : list Ascii.ascii) : list Ascii.ascii :=
  strip_all (length l) white_space l.

Definition trimEnd_bytes (l : list Ascii.ascii) : list Ascii.ascii :=
  rev (strip_all (length l) (map (@rev Ascii.ascii) white_space) (rev l)).

(** [s.trim()] *)
Definition trim (s : string) : string :=
  String.string_of_list_ascii (trimEnd_bytes (trimStart_bytes (String.list_ascii_of_string s))).

(** [s.startsWith(p)] *)
Definition startsWith (s p : string) : bool := String.prefix p s.

(** A byte that belongs to no encoding of white space. *)
Definition inert (c : Ascii.ascii) : Prop :=
  Forall (fun p => c ∉ p) white_space.

End JsString.

(** ** The login page *)

Module LoginPage.
Import Login DataRoutes JsString.
Local Open Scope eff_scope.

(** The state of the page, and what it did: the bodies it posted to
    [/api/login] and the routes it pushed. *)
Record State := mkState {
  projectUrl : string;
  serviceKey : string;
  error : string;
  posted : list Json;
  pushed : list string
}.

Definition setError (text : string) : Eff.t State unit :=
  Eff.modify (fun s => mkState (projectUrl s) (serviceKey s) text (posted s) (pushed s)).

Definition router_push (route : string) : Eff.t State unit :=
  Eff.modify (fun s =>
    mkState (projectUrl s) (serviceKey s) (error s) (posted s) (pushed s ++ [route])).

(** [fetch('/api/login', { method: 'POST', body: JSON.stringify(body) })];
    [server] is what the exchange gives for a body. *)
Definition post_login (server : Json -> Outcome HttpResponse) (body : Json)
  : Eff.t State HttpResponse :=
  Eff.modify (fun s =>
    mkState (projectUrl s) (serviceKey s) (error s) (posted s ++ [body]) (pushed s)) ;;
  Eff.await (server body).

(** [response.ok] *)
Definition ok (response : HttpResponse) : bool :=
  Nat.leb 200 (upstream_status response) && Nat.ltb (upstream_status response) 300.

(** [new Error(error.message || 'Login failed')] for the parsed body
    [error]; reading a member of [null] is a TypeError.  [ToString] is the
    conversion of a value that is not a string. *)
Definition login_error (ToString : Json -> string) (parsed : Json) : JsError :=
  match parsed with
  | JNull => TypeError "Cannot read properties of null (reading 'message')"
  | _ =>
      mkError "Error"
        (if truthy (property "message" parsed)
         then match property "message" parsed with
              | Some (JString s) => s
              | Some v => ToString v
              | None => EmptyString
              end
         else "Login failed")
  end.

Definition handleSubmit (ToString : Json -> string) (server : Json -> Outcome HttpResponse)
  : Eff.t State unit :=
  fun s0 =>
    (setError EmptyString ;;
     if negb (startsWith (projectUrl s0) "https://") then
       setError "Project URL must start with https://"
     else if negb (startsWith (serviceKey s0) "eyJ") then
       setError "Invalid service key format"
     else
       Eff.try_catch
         (let* response :=
            post_login server
              (JObject [("projectUrl", JString (trim (projectUrl s0)));
                        ("serviceKey", JString (trim (serviceKey s0)))]) in
          (if negb (ok response) then
             let* parsed := Eff.await (json response) in
             Eff.throw (login_error ToString parsed)
           else Eff.ret tt) ;;
          router_push "/dashboard")
         (fun e => setError (message e))) s0.

(** *** Vocabulary of the properties *)

(** The body of the JSON the login route answers. *)
Definition answer_json (b : Login.Body) : Json :=
  match b with
  | Message text => JObject [("message", JString text)]
  | Login.Failure text => JObject [("error", JString text)]
  end.

(** The exchange with the login route of this application. *)
Definition login_route (NODE_ENV : option string) (w : World) (body : Json)
  : Outcome HttpResponse :=
  match (Login.POST NODE_ENV (Returns body) w).1 with
  | Returns r => Returns (mkHttpResponse (Login.http_status r) (Returns (answer_json (Login.body r))))
  | Throws e => Throws e
  end.

(** The cookies the login route set in that exchange. *)
Definition cookies_set (NODE_ENV : option string) (w : World) (body : Json)
  : gmap string Cookie :=
  Login.cookies (answered (Login.POST NODE_ENV (Returns body) w).1).

Definition typed (url key : string) : State := mkState url key EmptyString [] [].

(** The body the page posts. *)
Definition credentials_body (s : State) : Json :=
  JObject [("projectUrl", JString (trim (projectUrl s)));
           ("serviceKey", JString (trim (serviceKey s)))].

End LoginPage.

(** ** The chat window *)

Module ChatWindow.
Import JsString.
Local Open Scope eff_scope.

(** A bubble of the conversation.  The content of an assistant bubble is
    [data.message] of the answer: no value when the answer has no such
    member. *)
Record Message := mkMessage {
  bubble_role : Role;
  bubble_content : option string;
  bubble_timestamp : string
}.

Record Props := mkProps {
  feature : Feature;
  resourceName : option string;
  initialContext : string
}.

(** The body the window posts to [/api/security-chat]. *)
Record Post := mkPost {
  post_messages : list Message;
  post_feature : Feature;
  post_resourceName : option string
}.

Record State := mkState {
  messages : list Message;
  input : string;
  loading : bool;
  posts : list Post;
  console : list ConsoleLine
}.

(** [`${feature}`] *)
Definition feature_name (f : Feature) : string :=
  match f with
  | RLS => "RLS"
  | MFA => "MFA"
  | PITR => "PITR"
  end.

(** The first bubble, set when the window opens at time [now]. *)
Definition greeting (props : Props) (now : string) : Message :=
  mkMessage assistant
    (Some ("I'm here to help you enable " +:+ feature_name (feature props)
           +:+ (if truthy_str (resourceName props)
                then " for " +:+ default EmptyString (resourceName props)
                else EmptyString)
           +:+ ". " +:+ initialContext props))
    now.

Definition opened (props : Props) (now : string) : State :=
  mkState [greeting props now] EmptyString false [] [].

(** [setMessages(prev => [...prev, m])] *)
Definition append_message (m : Message) : Eff.t State unit :=
  Eff.modify (fun s => mkState (messages s ++ [m]) (input s) (loading s) (posts s) (console s)).

Definition setInput (text : string) : Eff.t State unit :=
  Eff.modify (fun s => mkState (messages s) text (loading s) (posts s) (console s)).

Definition setLoading (b : bool) (s : State) : State :=
  mkState (messages s) (input s) b (posts s) (console s).

Definition console_error (l : string) (e : JsError) : Eff.t State unit :=
  Eff.modify (fun s =>
    mkState (messages s) (input s) (loading s) (posts s)
            (console s ++ [mkConsoleLine l (Some e)])).

(** The parsed answer [data], as far as the window reads it: [null], of
    which no member can be read, or a value with its [message] member, if
    it has one. *)
Inductive Data :=
| Null
| Value (message_member : option string).

(** The fetch and the parsing of its answer; [exchange] is what they give
    for a body. *)
Definition post_chat (exchange : Post -> Outcome Data) (body : Post)
  : Eff.t State Data :=
  Eff.modify (fun s =>
    mkState (messages s) (input s) (loading s) (posts s ++ [body]) (console s)) ;;
  Eff.await (exchange body).

(** [prev => [...prev, { role: 'assistant', content: data.message,
    timestamp }]]: the updater handed to [setMessages].  It is run when the
    window is next rendered, after the handler has left its [try] block;
    reading [data.message] of [null] throws there, and no [catch]
    surrounds it. *)
Definition append_answer (data : Data) (receivedAt : string) : Eff.t State unit :=
  match data with
  | Null => Eff.throw (TypeError "Cannot read properties of null (reading 'message')")
  | Value answer => append_message (mkMessage assistant answer receivedAt)
  end.

(** One press of Send, at time [sentAt], answered at time [receivedAt],
    up to and including the rendering of the updates it queued. *)
Definition handleSendMessage (props : Props) (sentAt receivedAt : string)
    (exchange : Post -> Outcome Data) : Eff.t State unit :=
  fun s0 =>
    (if String.eqb (trim (input s0)) EmptyString then Eff.ret tt
     else
       let userMessage := mkMessage user (Some (input s0)) sentAt in
       append_message userMessage ;;
       setInput EmptyString ;;
       Eff.modify (setLoading true) ;;
       let* queued :=
         Eff.try_finally
           (Eff.try_catch
              (let* data :=
                 post_chat exchange
                   (mkPost (messages s0 ++ [userMessage]) (feature props)
                           (resourceName props)) in
               Eff.ret (Some data))
              (fun e => console_error "Error sending message:" e ;; Eff.ret None))
           (setLoading false) in
       match queued with
       | Some data => append_answer data receivedAt
       | None => Eff.ret tt
       end) s0.

(** *** Vocabulary of the properties *)

(** A bubble as the chat route reads it; a bubble without content has no
    counterpart. *)
Definition on_the_wire (m : Message) : option SecurityChat.Message :=
  match bubble_content m with
  | Some text => Some (SecurityChat.mkMessage (bubble_role m) text (bubble_timestamp m))
  | None => None
  end.

(** The body of a post as the chat route parses it. *)
Definition parsed_body (body : Post) : option SecurityChat.ChatBody :=
  match mapM on_the_wire (post_messages body) with
  | Some ms => Some (SecurityChat.mkChatBody ms (post_feature body) (post_resourceName body))
  | None => None
  end.

(** [data.message] of an answer of the chat route. *)
Definition message_member (r : SecurityChat.Response) : option string :=
  match SecurityChat.body r with
  | SecurityChat.Answer text => Some text
  | SecurityChat.Failure _ => None
  end.

(** The exchange with the chat route of this application, for the bodies it
    can parse: both bodies of the route are objects. *)
Definition answers_as_route (openai : OpenAI) (w : World)
    (exchange : Post -> Outcome Data) (body : Post) : Prop :=
  exists b r,
    parsed_body body = Some b
    /\ (SecurityChat.POST openai (Returns b) w).1 = Returns r
    /\ exchange body = Returns (Value (message_member r)).

(** [onChange] of the input field. *)
Definition typing (text : string) (s : State) : State :=
  mkState (messages s) text (loading s) (posts s) (console s).

(** The bubble and the body of a press of Send. *)
Definition userMessage (s : State) (sentAt : string) : Message :=
  mkMessage user (Some (input s)) sentAt.

Definition body_sent (props : Props) (s : State) (sentAt : string) : Post :=
  mkPost (messages s ++ [userMessage s sentAt]) (feature props) (resourceName props).

End ChatWindow.

(** ** The dashboard *)

Module Dashboard.
Import RunChecks.
Local Open Scope eff_scope.

(** What the page remembers of a failing entry when help is asked. *)
Record Issue := mkIssue {
  issue_feature : Feature;
  issue_resourceName : option string;
  context : string
}.

Record State := mkState {
  results : option Body;
  loading : bool;
  chatOpen : bool;
  selectedIssue : option Issue;
  alerts : list string;
  console : list ConsoleLine
}.

Definition setLoading (b : bool) (s : State) : State :=
  mkState (results s) b (chatOpen s) (selectedIssue s) (alerts s) (console s).

Definition setResults (data : Body) : Eff.t State unit :=
  Eff.modify (fun s =>
    mkState (Some data) (loading s) (chatOpen s) (selectedIssue s) (alerts s) (console s)).

Definition alert (text : string) : Eff.t State unit :=
  Eff.modify (fun s =>
    mkState (results s) (loading s) (chatOpen s) (selectedIssue s)
            (alerts s ++ [text]) (console s)).

Definition console_error (l : string) (e : JsError) : Eff.t State unit :=
  Eff.modify (fun s =>
    mkState (results s) (loading s) (chatOpen s) (selectedIssue s) (alerts s)
            (console s ++ [mkConsoleLine l (Some e)])).

(** [response.ok] *)
Definition ok (response : Response) : bool :=
  Nat.leb 200 (http_status response) && Nat.ltb (http_status response) 300.

(** One press of the button; [exchange] is what [fetch('/api/run-checks')]
    gives. *)
Definition handleRunChecks (exchange : Outcome Response) : Eff.t State unit :=
  Eff.modify (setLoading true) ;;
  Eff.try_finally
    (Eff.try_catch
       (let* response := Eff.await exchange in
        if negb (ok response) then
          Eff.throw (mkError "Error" "Failed to fetch results")
        else setResults (body response))
       (fun e =>
          console_error "Error running checks:" e ;;
          alert "Failed to run checks. Please try again."))
    (setLoading false).

(** [value || undefined] for an optional string *)
Definition or_undefined (v : option string) : option string :=
  if truthy_str v then v else None.

(** The Get Help button of a principal, when it is shown. *)
Definition mfa_help (u : MfaResult) : option Issue :=
  if negb (mfa_enabled u) then
    Some (mkIssue MFA (or_undefined (mfa_email u))
            "How to enable and configure MFA for this user")
  else None.

(** The badge of a relation. *)
Definition rls_badge (t : RlsResult) : string :=
  if rls_enabled t then "RLS Enabled" else "RLS Disabled".

(** The Get Help button of a relation, when it is shown. *)
Definition rls_help (t : RlsResult) : option Issue :=
  if negb (rls_enabled t) || negb (has_policies t) then
    Some (mkIssue RLS (Some (table t))
            ("How to " +:+ (if negb (rls_enabled t) then "enable RLS"
                            else "add security policies")
             +:+ " for " +:+ table t))
  else None.

(** The Get Help button of the recovery status, when it is shown. *)
Definition pitr_help (pitr : bool) : option Issue :=
  if negb pitr then
    Some (mkIssue PITR None
            "How to enable and configure Point in Time Recovery for your project")
  else None.

(** The suggested fix under a log entry, when it is shown. *)
Definition log_fix (log : SecurityLog) : option string :=
  if negb (status (log_row log)) && truthy_str (suggested_fix (log_row log))
  then suggested_fix (log_row log) else None.

(** The chat button under a log entry, when it is shown. *)
Definition log_chat (log : SecurityLog) : option Issue :=
  if negb (status (log_row log)) && truthy_str (suggested_fix (log_row log))
     && auto_fixable (log_row log)
  then Some (mkIssue (feature (log_row log)) (or_undefined (resource_name (log_row log)))
               (default EmptyString (suggested_fix (log_row log))))
  else None.

(** Pressing a help or chat button. *)
Definition open_help (issue : Issue) (s : State) : State :=
  mkState (results s) (loading s) true (Some issue) (alerts s) (console s).

(** [onClose] of the chat window. *)
Definition close_help (s : State) : State :=
  mkState (results s) (loading s) false None (alerts s) (console s).

(** The props of the chat window, when it is rendered. *)
Definition chat_props (s : State) : option ChatWindow.Props :=
  if chatOpen s then
    match selectedIssue s with
    | Some issue =>
        Some (ChatWindow.mkProps (issue_feature issue) (issue_resourceName issue)
                (context issue))
    | None => None
    end
  else None.

(** *** Vocabulary of the properties *)

Definition idle : State := mkState None false false None [] [].

Definition try_again : string := "Failed to run checks. Please try again.".

(** What the page's fetch receives from the route: the handler's response,
    or, when the handler rejects, the status 500 of the framework (the page
    reads no body of an answer that is not ok). *)
Definition served (o : Outcome Response) : Outcome Response :=
  match o with
  | Returns r => Returns r
  | Throws _ => Returns (mkResponse 500 (Failure "Internal Server Error" None))
  end.

End Dashboard.

(** * Properties of the run-checks route *)

Module RunChecksFacts.
Import RunChecks.

(** ** One step at a time *)

Lemma GET_unauthenticated platform req w :
  authenticated req = false ->
  GET platform req w = (Returns (mkResponse 401 (Failure "Not authenticated" None)), w).
Proof.
  unfold authenticated, GET. intros H.
  destruct (truthy_str (cookies req !! "projectUrl")),
           (truthy_str (cookies req !! "serviceKey")); simpl in *;
    try discriminate; reflexivity.
Qed.

Lemma GET_authenticated platform req w :
  authenticated req = true ->
  GET platform req w =
  match client_error (upstream (client_of platform req)) with
  | Some e => (Throws e, w)
  | None => try_catch (run_checks (client_of platform req)) on_error w
  end.
Proof.
  unfold authenticated, GET. intros H.
  destruct (truthy_str (cookies req !! "projectUrl")),
           (truthy_str (cookies req !! "serviceKey")); simpl in *;
    try discriminate.
  unfold bind, createClient, client_of. simpl.
  by destruct (client_error _).
Qed.

(** An answer can only be had from a client that was built. *)
Lemma listing_built up x : listUsers_reply up = Returns x -> client_error up = None.
Proof. by destruct up. Qed.

Lemma logSecurityIssue_run c f s r w :
  logSecurityIssue c f s r w =
  let row := issue_row f s r in
  match insert_reply (upstream c) (length (outbound w)) row with
  | Returns None => (Returns tt, stored row (called (insert_call c row) w))
  | Returns (Some _) => (Returns tt, called (insert_call c row) w)
  | Throws e => (Throws e, called (insert_call c row) w)
  end.
Proof.
  unfold logSecurityIssue, insert_security_logs, bind, calls_so_far, record_call, await.
  simpl. destruct (insert_reply _ _ _) as [[e|]|e]; reflexivity.
Qed.

Lemma appended_refl P w : appended P w w.
Proof. exists []. rewrite app_nil_r. split; constructor. Qed.

Lemma appended_trans P w1 w2 w3 :
  appended P w1 w2 -> appended P w2 w3 -> appended P w1 w3.
Proof.
  intros (r1 & Hr1 & Hp1) (r2 & Hr2 & Hp2).
  exists (r1 ++ r2). rewrite Hr2, Hr1, app_assoc.
  split; [reflexivity | by apply Forall_app].
Qed.

Lemma appended_weaken (P Q : InsertRow -> Prop) w w' :
  (forall row, P row -> Q row) -> appended P w w' -> appended Q w w'.
Proof.
  intros HPQ (r & Hr & Hp). exists r. split; [exact Hr|].
  eapply Forall_impl; [exact Hp | auto].
Qed.

Lemma appended_same_table P w w' :
  security_logs w' = security_logs w -> appended P w w'.
Proof. intros H. exists []. rewrite app_nil_r. split; [exact H | constructor]. Qed.

Lemma logSecurityIssue_appended c f s r w :
  appended (fun row => row = issue_row f s r) w (logSecurityIssue c f s r w).2.
Proof.
  rewrite logSecurityIssue_run. cbv zeta.
  destruct (insert_reply _ _ _) as [[e|]|e]; simpl.
  - by apply appended_same_table.
  - eexists [_]. split; [reflexivity | by repeat constructor].
  - by apply appended_same_table.
Qed.

(** The loop that logs one issue per element of [xs]. *)
Lemma log_loop_appended {A} c f (st : A -> bool) (rn : A -> option string) (xs : list A) w :
  appended (fun row => exists x, x ∈ xs /\ row = issue_row f (st x) (rn x)) w
           (for_of xs (fun x => logSecurityIssue c f (st x) (rn x)) w).2.
Proof.
  revert w. induction xs as [|x xs IH]; intros w; simpl.
  - apply appended_refl.
  - unfold bind.
    pose proof (logSecurityIssue_appended c f (st x) (rn x) w) as H1.
    destruct (logSecurityIssue c f (st x) (rn x) w) as [[[]|e] w1]; simpl in *.
    + eapply appended_trans.
      * eapply appended_weaken; [|exact H1].
        intros row ->. exists x. split; [left|reflexivity].
      * eapply appended_weaken; [|apply IH].
        intros row (y & Hy & ->). exists y. split; [by right|reflexivity].
    + eapply appended_weaken; [|exact H1].
      intros row ->. exists x. split; [left|reflexivity].
Qed.

(** The loop returns when no insert throws. *)
Lemma log_loop_returns {A} c f (st : A -> bool) (rn : A -> option string) (xs : list A) w :
  inserts_return (upstream c) ->
  (for_of xs (fun x => logSecurityIssue c f (st x) (rn x)) w).1 = Returns tt.
Proof.
  intros Hret. revert w. induction xs as [|x xs IH]; intros w; simpl; [reflexivity|].
  unfold bind. rewrite logSecurityIssue_run. cbv zeta.
  destruct (Hret (length (outbound w)) (issue_row f (st x) (rn x))) as [r ->].
  destruct r; apply IH.
Qed.

(** When the store accepts every row, the loop appends exactly one row per
    element, in order. *)
Lemma log_loop_accepted {A} c f (st : A -> bool) (rn : A -> option string) (xs : list A) w :
  inserts_accepted (upstream c) ->
  exists news,
    security_logs (for_of xs (fun x => logSecurityIssue c f (st x) (rn x)) w).2
      = security_logs w ++ news
    /\ map log_row news = map (fun x => issue_row f (st x) (rn x)) xs.
Proof.
  intros Hacc. revert w. induction xs as [|x xs IH]; intros w; simpl.
  - exists []. by rewrite app_nil_r.
  - unfold bind. rewrite logSecurityIssue_run. cbv zeta. rewrite Hacc.
    destruct (IH (stored (issue_row f (st x) (rn x))
                    (called (insert_call c (issue_row f (st x) (rn x))) w)))
      as (news & Hlogs & Hmap).
    eexists (_ :: news). rewrite Hlogs. simpl. rewrite <- app_assoc. simpl.
    split; [reflexivity|]. by rewrite Hmap.
Qed.

(** ** The RLS provider *)

Lemma checkRLSStatus_run c w :
  checkRLSStatus c w =
  let w1 := called (rls_call c) w in
  match check_rls_status_reply (upstream c) with
  | Throws e => (Throws e, w1)
  | Returns reply =>
      match error reply with
      | Some e => (Returns rls_fallback, noted "RLS check failed:" (Some e) w1)
      | None =>
          match data reply with
          | None => (Throws (TypeError "rlsData is not iterable"), w1)
          | Some rows =>
              match for_of rows (fun t =>
                      logSecurityIssue c RLS (row_rls_enabled t && row_has_policies t)
                                       (Some (table_name t))) w1 with
              | (Returns _, w2) => (Returns (map rls_result_of rows), w2)
              | (Throws e, w2) => (Throws e, w2)
              end
          end
      end
  end.
Proof.
  unfold checkRLSStatus, rpc_check_rls_status, bind, record_call, await. cbv zeta.
  fold (rls_call c). fold (called (rls_call c) w).
  destruct (check_rls_status_reply (upstream c)) as [reply|e]; [|reflexivity].
  destruct (error reply) as [e|]; [reflexivity|].
  destruct (data reply) as [rows|]; [|reflexivity].
  simpl. destruct (for_of rows _ _) as [[[]|e] w2]; reflexivity.
Qed.

(** Whatever [checkRLSStatus] returns is what [rls_findings] says. *)
Lemma checkRLSStatus_returns c w fs w' :
  checkRLSStatus c w = (Returns fs, w') ->
  exists reply,
    check_rls_status_reply (upstream c) = Returns reply
    /\ readable reply /\ fs = rls_findings reply.
Proof.
  rewrite checkRLSStatus_run. cbv zeta. unfold readable, rls_findings.
  destruct (check_rls_status_reply (upstream c)) as [reply|e]; [|discriminate].
  destruct (error reply) as [e|] eqn:He.
  - intros [= <- _]. exists reply. rewrite He. by repeat split.
  - destruct (data reply) as [rows|] eqn:Hd; [|discriminate].
    destruct (for_of rows _ _) as [[[]|e] w2]; [|discriminate].
    intros [= <- _]. exists reply. rewrite He, Hd. repeat split; eauto.
Qed.

(** Every row it writes is the row of a relation the introspection listed. *)
Lemma checkRLSStatus_appended c w :
  appended (fun row => exists reply rows t,
              check_rls_status_reply (upstream c) = Returns reply
              /\ error reply = None /\ data reply = Some rows
              /\ t ∈ rows /\ row = rls_row_of t)
           w (checkRLSStatus c w).2.
Proof.
  rewrite checkRLSStatus_run. cbv zeta.
  destruct (check_rls_status_reply (upstream c)) as [reply|e] eqn:Hr;
    [|by apply appended_same_table].
  destruct (error reply) as [e|] eqn:He; [by apply appended_same_table|].
  destruct (data reply) as [rows|] eqn:Hd; [|by apply appended_same_table].
  pose proof (log_loop_appended c RLS
                (fun t => row_rls_enabled t && row_has_policies t)
                (fun t => Some (table_name t)) rows (called (rls_call c) w)) as Hloop.
  destruct (for_of rows _ _) as [[[]|e] w2]; simpl in *.
  all: eapply appended_trans; [by apply appended_same_table|].
  all: eapply appended_weaken; [|exact Hloop].
  all: intros row (t & Ht & ->); exists reply, rows, t; by repeat split.
Qed.

(** ** The whole run *)

Lemma run_checks_run c w :
  run_checks c w =
  let w1 := called (list_call c) w in
  match listUsers_reply (upstream c) with
  | Throws e => (Throws e, w1)
  | Returns (users, Some e) => (Throws e, w1)
  | Returns (users, None) =>
    match for_of (map mfa_result_of users) (fun u =>
            logSecurityIssue c MFA (mfa_enabled u) (mfa_email u)) w1 with
    | (Throws e, w2) => (Throws e, w2)
    | (Returns _, w2) =>
      match checkRLSStatus c w2 with
      | (Throws e, w3) => (Throws e, w3)
      | (Returns rlsResults, w3) =>
        let w4 := called (pitr_call c) w3 in
        match check_pitr_status_reply (upstream c) with
        | Throws e => (Throws e, w4)
        | Returns pitr =>
          let w5 := match error pitr with
                    | Some e => noted "PITR check error:" (Some e) w4
                    | None => w4
                    end in
          match logSecurityIssue c PITR (pitr_of (data pitr)) None w5 with
          | (Throws e, w6) => (Throws e, w6)
          | (Returns _, w6) =>
            let w7 := called (select_call c) w6 in
            let report := Report (map mfa_result_of users) rlsResults (pitr_of (data pitr)) in
            match select_reply (upstream c) (security_logs w7) with
            | Throws e => (Throws e, w7)
            | Returns logs => (Returns (mkResponse 200 (report logs)), w7)
            end
          end
        end
      end
    end
  end.
Proof.
  unfold run_checks, listUsers. unfold bind at 1 2. unfold record_call at 1, await at 1.
  cbv zeta. fold (list_call c). fold (called (list_call c) w).
  destruct (listUsers_reply (upstream c)) as [[users [e|]]|e]; try reflexivity.
  unfold bind at 1.
  destruct (for_of (map mfa_result_of users) _ _) as [[[]|e] w2]; [|reflexivity].
  unfold bind at 1.
  destruct (checkRLSStatus c w2) as [[rlsResults|e] w3]; [|reflexivity].
  unfold rpc_check_pitr_status. unfold bind at 1 2. unfold record_call at 1, await at 1.
  fold (pitr_call c). fold (called (pitr_call c) w3).
  destruct (check_pitr_status_reply (upstream c)) as [pitr|e]; [|reflexivity].
  unfold bind at 1.
  assert (Hnote : (match error pitr with
                   | Some pitrError => console_error "PITR check error:" (Some pitrError)
                   | None => ret tt
                   end) (called (pitr_call c) w3)
                  = (Returns tt, match error pitr with
                                 | Some e => noted "PITR check error:" (Some e)
                                                   (called (pitr_call c) w3)
                                 | None => called (pitr_call c) w3
                                 end)).
  { destruct (error pitr); reflexivity. }
  rewrite Hnote. clear Hnote.
  set (w5 := match error pitr with Some e => _ | None => _ end).
  unfold bind at 1.
  destruct (logSecurityIssue c PITR (pitr_of (data pitr)) None w5) as [[[]|e] w6];
    [|reflexivity].
  unfold select_recent_logs. unfold bind at 1 2 3.
  unfold record_call at 1, read_logs at 1, await at 1.
  fold (select_call c). fold (called (select_call c) w6).
  by destruct (select_reply (upstream c) _) as [logs|e].
Qed.

(** A run that returns has read all three answers. *)
Lemma run_checks_returns c w resp w' :
  run_checks c w = (Returns resp, w') ->
  exists us rr pr logs,
    listUsers_reply (upstream c) = Returns (us, None)
    /\ check_rls_status_reply (upstream c) = Returns rr /\ readable rr
    /\ check_pitr_status_reply (upstream c) = Returns pr
    /\ resp = mkResponse 200
                (Report (map mfa_result_of us) (rls_findings rr) (pitr_of (data pr)) logs).
Proof.
  rewrite run_checks_run. cbv zeta.
  destruct (listUsers_reply (upstream c)) as [[us [e|]]|e]; try discriminate.
  destruct (for_of (map mfa_result_of us) _ _) as [[[]|e] w2]; [|discriminate].
  destruct (checkRLSStatus c w2) as [[fs|e] w3] eqn:Hrls; [|discriminate].
  apply checkRLSStatus_returns in Hrls as (rr & Hrr & Hread & ->).
  destruct (check_pitr_status_reply (upstream c)) as [pr|e]; [|discriminate].
  destruct (logSecurityIssue c PITR _ _ _) as [[[]|e] w6]; [|discriminate].
  destruct (select_reply (upstream c) _) as [logs|e]; [|discriminate].
  intros [= <- _]; do 4 eexists; repeat split; eauto.
Qed.

(** A run returns its report when every answer can be read and nothing
    throws. *)
Lemma run_checks_completes c w us rr pr :
  listUsers_reply (upstream c) = Returns (us, None) ->
  check_rls_status_reply (upstream c) = Returns rr -> readable rr ->
  check_pitr_status_reply (upstream c) = Returns pr ->
  inserts_return (upstream c) ->
  (forall table, exists r, select_reply (upstream c) table = Returns r) ->
  exists logs,
    (run_checks c w).1
    = Returns (mkResponse 200
                 (Report (map mfa_result_of us) (rls_findings rr) (pitr_of (data pr)) logs)).
Proof.
  intros Hus Hrr Hread Hpr Hins Hsel.
  rewrite run_checks_run. cbv zeta. rewrite Hus.
  pose proof (log_loop_returns c MFA mfa_enabled mfa_email (map mfa_result_of us)
                (called (list_call c) w) Hins) as Hmfa.
  destruct (for_of (map mfa_result_of us) _ _) as [[[]|e] w2]; [|discriminate].
  rewrite checkRLSStatus_run. cbv zeta. rewrite Hrr. unfold rls_findings, readable in *.
  assert (Hpitr : forall w3 fs,
    exists logs,
      (let w4 := called (pitr_call c) w3 in
       match check_pitr_status_reply (upstream c) with
       | Throws e => (Throws e, w4)
       | Returns pitr =>
         let w5 := match error pitr with
                   | Some e => noted "PITR check error:" (Some e) w4
                   | None => w4
                   end in
         match logSecurityIssue c PITR (pitr_of (data pitr)) None w5 with
         | (Throws e, w6) => (Throws e, w6)
         | (Returns _, w6) =>
           let w7 := called (select_call c) w6 in
           let report := Report (map mfa_result_of us) fs (pitr_of (data pitr)) in
           match select_reply (upstream c) (security_logs w7) with
           | Throws e => (Throws e, w7)
           | Returns logs => (Returns (mkResponse 200 (report logs)), w7)
           end
         end
       end).1
      = Returns (mkResponse 200 (Report (map mfa_result_of us) fs (pitr_of (data pr)) logs))).
  { intros w3 fs. cbv zeta. rewrite Hpr.
    set (w5 := match error pr with Some e => _ | None => _ end).
    rewrite logSecurityIssue_run. cbv zeta.
    destruct (Hins (length (outbound w5)) (issue_row PITR (pitr_of (data pr)) None))
      as [x ->].
    destruct x; match goal with |- context [select_reply ?u ?t] =>
                  destruct (Hsel t) as [r ->] end; eexists; reflexivity. }
  destruct (error rr) as [e|]; [apply Hpitr|].
  destruct (Hread eq_refl) as [rows ->]. simpl.
  pose proof (log_loop_returns c RLS (fun t => row_rls_enabled t && row_has_policies t)
                (fun t => Some (table_name t)) rows (called (rls_call c) w2) Hins) as Hloop.
  destruct (for_of rows _ _) as [[[]|e] w3]; [|discriminate].
  apply Hpitr.
Qed.

(** The rows a run appends: one kind per provider. *)
Lemma run_checks_appended c w :
  appended (fun row =>
              (exists us u, listUsers_reply (upstream c) = Returns (us, None)
                            /\ u ∈ us /\ row = issue_row MFA (has_factor u) (email u))
              \/ (exists reply rows t,
                    check_rls_status_reply (upstream c) = Returns reply
                    /\ error reply = None /\ data reply = Some rows
                    /\ t ∈ rows /\ row = rls_row_of t)
              \/ (exists pr, check_pitr_status_reply (upstream c) = Returns pr
                             /\ row = issue_row PITR (pitr_of (data pr)) None))
           w (run_checks c w).2.
Proof.
  match goal with |- appended ?P _ _ => set (Q := P) end.
  rewrite run_checks_run. cbv zeta.
  destruct (listUsers_reply (upstream c)) as [[us [e|]]|e] eqn:Hus;
    try by apply appended_same_table.
  eapply appended_trans; [by apply (appended_same_table _ w (called (list_call c) w))|].
  pose proof (log_loop_appended c MFA mfa_enabled mfa_email (map mfa_result_of us)
                (called (list_call c) w)) as Hmfa.
  apply (appended_weaken _ Q) in Hmfa; cycle 1.
  { intros row (f & Hf & ->). left. apply list_elem_of_fmap in Hf as (u & -> & Hu).
    exists us, u. by repeat split. }
  destruct (for_of (map mfa_result_of us) _ _) as [[[]|e] w2]; simpl in Hmfa;
    [|exact Hmfa].
  eapply appended_trans; [exact Hmfa|]. clear Hmfa.
  pose proof (checkRLSStatus_appended c w2) as Hrls.
  apply (appended_weaken _ Q) in Hrls; cycle 1.
  { intros row H. right. left. exact H. }
  destruct (checkRLSStatus c w2) as [[fs|e] w3]; simpl in Hrls; [|exact Hrls].
  eapply appended_trans; [exact Hrls|]. clear Hrls.
  eapply appended_trans;
    [by apply (appended_same_table _ w3 (called (pitr_call c) w3))|].
  destruct (check_pitr_status_reply (upstream c)) as [pr|e] eqn:Hpr;
    [|apply appended_refl].
  set (w5 := match error pr with Some e => _ | None => _ end).
  assert (H5 : security_logs w5 = security_logs (called (pitr_call c) w3)).
  { unfold w5. by destruct (error pr). }
  eapply appended_trans; [by apply (appended_same_table _ _ w5)|].
  pose proof (logSecurityIssue_appended c PITR (pitr_of (data pr)) None w5) as Hp.
  apply (appended_weaken _ Q) in Hp; cycle 1.
  { intros row ->. right. right. exists pr. by split. }
  destruct (logSecurityIssue c PITR _ _ _) as [[[]|e] w6]; simpl in Hp; [|exact Hp].
  eapply appended_trans; [exact Hp|].
  apply appended_same_table.
  by destruct (select_reply (upstream c) _) as [logs|e].
Qed.

(** ** The handler *)

Lemma GET_report platform req w b w' :
  GET platform req w = (Returns (mkResponse 200 b), w') ->
  authenticated req = true
  /\ run_checks (client_of platform req) w = (Returns (mkResponse 200 b), w').
Proof.
  destruct (authenticated req) eqn:Hauth.
  - rewrite (GET_authenticated _ _ _ Hauth).
    destruct (client_error _); [intros [=]|]. unfold try_catch.
    destruct (run_checks _ w) as [[resp|e] w1]; [by intros [= -> ->]|].
    unfold on_error, bind, console_error, ret. intros [=].
  - rewrite (GET_unauthenticated _ _ _ Hauth). intros [=].
Qed.

(** With a client built, the handler answers the report or the error it
    caught. *)
Lemma GET_run platform req w :
  authenticated req = true ->
  client_error (upstream (client_of platform req)) = None ->
  GET platform req w =
  match run_checks (client_of platform req) w with
  | (Returns resp, w1) => (Returns resp, w1)
  | (Throws e, w1) =>
      (Returns (mkResponse 500 (Failure (message e) (Some e))),
       noted "Error running checks:" (Some e) w1)
  end.
Proof.
  intros Hauth Hbuilt. rewrite (GET_authenticated _ _ _ Hauth), Hbuilt. unfold try_catch.
  by destruct (run_checks _ w) as [[resp|e] w1].
Qed.

(** When [createClient] throws, the handler rejects, having done nothing. *)
Lemma GET_not_built platform req w e :
  authenticated req = true ->
  client_error (upstream (client_of platform req)) = Some e ->
  GET platform req w = (Throws e, w).
Proof. intros Hauth He. by rewrite (GET_authenticated _ _ _ Hauth), He. Qed.

(** When the store accepts every row and the introspection answers rows,
    a run appends one row per principal, one per relation and one for the
    recovery probe, in that order. *)
Lemma run_checks_rows_accepted c w us rr rows pr :
  listUsers_reply (upstream c) = Returns (us, None) ->
  check_rls_status_reply (upstream c) = Returns rr ->
  error rr = None -> data rr = Some rows ->
  check_pitr_status_reply (upstream c) = Returns pr ->
  inserts_accepted (upstream c) ->
  exists news,
    security_logs (run_checks c w).2 = security_logs w ++ news
    /\ map log_row news
       = map (fun u => issue_row MFA (has_factor u) (email u)) us
         ++ map rls_row_of rows
         ++ [issue_row PITR (pitr_of (data pr)) None].
Proof.
  intros Hus Hrr He Hd Hpr Hacc.
  assert (Hret : inserts_return (upstream c)) by (intros n row; eexists; apply Hacc).
  rewrite run_checks_run. cbv zeta. rewrite Hus.
  destruct (log_loop_accepted c MFA mfa_enabled mfa_email (map mfa_result_of us)
              (called (list_call c) w) Hacc) as (n1 & Hl1 & Hm1).
  pose proof (log_loop_returns c MFA mfa_enabled mfa_email (map mfa_result_of us)
                (called (list_call c) w) Hret) as Hr1.
  destruct (for_of (map mfa_result_of us) _ _) as [[[]|e] w2]; [|discriminate].
  rewrite checkRLSStatus_run. cbv zeta. rewrite Hrr, He, Hd.
  destruct (log_loop_accepted c RLS (fun t => row_rls_enabled t && row_has_policies t)
              (fun t => Some (table_name t)) rows (called (rls_call c) w2) Hacc)
    as (n2 & Hl2 & Hm2).
  pose proof (log_loop_returns c RLS (fun t => row_rls_enabled t && row_has_policies t)
                (fun t => Some (table_name t)) rows (called (rls_call c) w2) Hret) as Hr2.
  destruct (for_of rows _ _) as [[[]|e] w3]; [|discriminate].
  rewrite Hpr.
  set (w5 := match error pr with Some e => _ | None => _ end).
  assert (H5 : security_logs w5 = security_logs w3) by (unfold w5; by destruct (error pr)).
  rewrite logSecurityIssue_run. cbv zeta. rewrite Hacc.
  eexists (n1 ++ n2 ++ [_]).
  split.
  - destruct (select_reply (upstream c) _) as [logs|e]; simpl;
      rewrite H5; simpl in Hl1, Hl2; rewrite Hl2, Hl1; by rewrite <- !app_assoc.
  - rewrite !map_app, Hm1, Hm2, map_map. reflexivity.
Qed.

(** ** The calls of a run that returns *)










(** Evaluating a closed run down to its report. *)
Ltac evaluate_run :=
  do 5 eexists; vm_compute; reflexivity.

(** ** The claims *)

(** C1, as stated, fails.  Both cookies are present and a client is built;
    the listing of principals -- the upstream call of the MFA provider --
    fails on the network, which is no authentication failure.  The error is
    not turned into a finding at the provider: the handler re-throws it,
    its one catch block answers the whole run with status 500 and no
    finding, and neither the RLS nor the PITR provider is called (the trace
    holds the listing alone).  Hence it is not true that a run whose MFA
    provider fails for a reason other than authentication returns a
    report. *)
Lemma listing_failure_aborts_run :
  authenticated logged_in = true
  /\ client_error (upstream (client_of listing_unreachable logged_in)) = None
  /\ listUsers_reply (upstream (client_of listing_unreachable logged_in))
     = Returns ([], Some network_error)
  /\ GET listing_unreachable logged_in start
     = (Returns (mkResponse 500 (Failure "fetch failed" (Some network_error))),
        noted "Error running checks:" (Some network_error)
              (called (list_call (client_of listing_unreachable logged_in)) start))
  /\ outbound (GET listing_unreachable logged_in start).2
     = [list_call (client_of listing_unreachable logged_in)]
  /\ ~ (forall platform req w us e,
          authenticated req = true ->
          listUsers_reply (upstream (client_of platform req)) = Returns (us, Some e) ->
          err_name e = "AuthRetryableFetchError" ->
          exists mfa rls pitr logs,
            (GET platform req w).1 = Returns (mkResponse 200 (Report mfa rls pitr logs))).
Proof.
  split; [reflexivity|]. split; [reflexivity|]. split; [reflexivity|].
  split; [reflexivity|]. split; [reflexivity|].
  intros H.
  destruct (H listing_unreachable logged_in start [] network_error
              eq_refl eq_refl eq_refl) as (mfa & rls & pitr & logs & Heq).
  vm_compute in Heq. discriminate Heq.
Qed.

(** C1, amended.  With both cookies present: when the listing answers
    without error, both remote procedures answer a reply the handler can
    read (an error member, or data), a recovery reply with an error carries
    no data, and no insert or select throws, the run returns the report, in
    which an error reported by the RLS introspection has become the
    synthetic disabled finding and an error reported by the recovery probe
    has become [false]; when the listing reports an error, whatever the
    error, the run as a whole is answered with status 500 and the error's
    message, and the listing is the only call made. *)
Theorem reply_errors_inline_listing_error_aborts platform req w :
  authenticated req = true ->
  let c := client_of platform req in
  (forall us rr pr,
     listUsers_reply (upstream c) = Returns (us, None) ->
     check_rls_status_reply (upstream c) = Returns rr -> readable rr ->
     check_pitr_status_reply (upstream c) = Returns pr -> failure_without_data pr ->
     inserts_return (upstream c) ->
     (forall table, exists r, select_reply (upstream c) table = Returns r) ->
     (exists logs,
        (GET platform req w).1
        = Returns (mkResponse 200
                     (Report (map mfa_result_of us) (rls_findings rr)
                             (pitr_of (data pr)) logs)))
     /\ (is_Some (error rr) ->
         rls_findings rr = rls_fallback
         /\ Forall (fun f => rls_enabled f = false) (rls_findings rr))
     /\ (is_Some (error pr) -> pitr_of (data pr) = false))
  /\ (forall us e,
        listUsers_reply (upstream c) = Returns (us, Some e) ->
        GET platform req w
        = (Returns (mkResponse 500 (Failure (message e) (Some e))),
           noted "Error running checks:" (Some e) (called (list_call c) w))).
Proof.
  intros Hauth c. split.
  - intros us rr pr Hus Hrr Hread Hpr Hfail Hins Hsel. split; [|split].
    + destruct (run_checks_completes _ w _ _ _ Hus Hrr Hread Hpr Hins Hsel) as [logs H].
      exists logs. rewrite (GET_run _ _ _ Hauth (listing_built _ _ Hus)).
      fold c. destruct (run_checks c w) as [[resp|e] w1]; simpl in *; congruence.
    + intros [e He]. unfold rls_findings. rewrite He.
      split; [reflexivity | by repeat constructor].
    + intros He. by rewrite (Hfail He).
  - intros us e Hus.
    rewrite (GET_run _ _ _ Hauth (listing_built _ _ Hus)), run_checks_run.
    cbv zeta. fold c. by rewrite Hus.
Qed.

Lemma reply_errors_inline_listing_error_aborts_witness :
  (exists logs,
     (GET pitr_refused logged_in start).1
     = Returns (mkResponse 200
                  (Report (map mfa_result_of [alice; bob])
                          [mkRlsResult "orders" true true 2] false logs)))
  /\ GET listing_unreachable logged_in start
     = (Returns (mkResponse 500 (Failure "fetch failed" (Some network_error))),
        noted "Error running checks:" (Some network_error)
              (called (list_call (client_of listing_unreachable logged_in)) start)).
Proof.
  split.
  - destruct (reply_errors_inline_listing_error_aborts pitr_refused logged_in start
                eq_refl) as [H _].
    refine (proj1 (H [alice; bob] _ _ eq_refl eq_refl _ eq_refl _ _ _)).
    + intros _. by eexists.
    + intros _. reflexivity.
    + intros n row. by exists None.
    + intros table. by eexists.
  - destruct (reply_errors_inline_listing_error_aborts listing_unreachable logged_in
                start eq_refl) as [_ H].
    exact (H [] network_error eq_refl).
Defined.

(** C2: the code departs from the claim.  In scenario B the introspection
    reports an error; the run returns two findings (the synthetic RLS
    finding and the recovery flag) and writes a single row, the one of the
    recovery probe: [checkRLSStatus] returns the synthetic finding before
    the loop that logs. *)
Theorem synthetic_rls_finding_not_recorded :
  exists logs w',
    GET scenario_B logged_in start
    = (Returns (mkResponse 200 (Report [] rls_fallback true logs)), w')
    /\ map log_row (security_logs w') = [issue_row PITR true None]
    /\ Forall (fun rec => feature (log_row rec) <> RLS) (security_logs w').
Proof.
  do 2 eexists. split; [vm_compute; reflexivity|].
  split; [reflexivity|]. by repeat constructor.
Qed.

(** Scenario A writes exactly four rows, one of them with a suggested fix. *)
Example scenario_A_rows :
  map log_row (security_logs (GET scenario_A logged_in start).2)
  = [ mkInsertRow MFA true (Some "alice@example.com") None false;
      mkInsertRow MFA false (Some "bob@example.com")
        (Some "Enable MFA in authentication settings and require users to set up 2FA") false;
      mkInsertRow RLS true (Some "orders") None false;
      mkInsertRow PITR true None None false ].
Proof. reflexivity. Qed.

(** C3, as stated, fails.  In scenario B the introspection reports an error
    about relation [logs]; the RLS list of the report is the one synthetic
    finding, labelled [posts_table], and holds no finding for [logs].
    Hence it is not true that a run whose introspection reports an error
    about a relation X has a finding for X in its report. *)
Lemma rls_error_finding_not_for_resource :
  check_rls_status_reply (upstream (client_of scenario_B logged_in))
  = Returns (mkReply None
               (Some (mkError "PostgrestError" "permission denied for table logs")))
  /\ (exists mfa pitr logs w',
        GET scenario_B logged_in start
        = (Returns (mkResponse 200
                      (Report mfa [mkRlsResult "posts_table" false false 0] pitr logs)),
           w'))
  /\ ~ (forall platform req w (X : string) rr e mfa rls pitr logs w',
          check_rls_status_reply (upstream (client_of platform req)) = Returns rr ->
          error rr = Some e ->
          message e = "permission denied for table " +:+ X ->
          GET platform req w = (Returns (mkResponse 200 (Report mfa rls pitr logs)), w') ->
          exists f, f ∈ rls /\ table f = X
                    /\ rls_enabled f = false /\ policy_count f = 0%Z).
Proof.
  assert (exists mfa pitr logs w',
            GET scenario_B logged_in start
            = (Returns (mkResponse 200
                          (Report mfa [mkRlsResult "posts_table" false false 0] pitr logs)),
               w'))
    as Hrun by (do 4 eexists; vm_compute; reflexivity).
  split; [reflexivity|]. split; [exact Hrun|].
  intros H. destruct Hrun as (mfa & pitr & logs & w' & Hrun).
  destruct (H scenario_B logged_in start "logs" _ _ _ _ _ _ _
              eq_refl eq_refl eq_refl Hrun) as (f & Hf & Htable & _).
  apply list_elem_of_In in Hf. simpl in Hf.
  destruct Hf as [<-|[]]. discriminate Htable.
Qed.

(** C3, amended.  When the introspection reports an error, the provider
    returns, in every world, exactly one finding, disabled, without
    policies, with policy count zero; and the RLS list of any report of
    such a run is that single finding. *)
Theorem rls_error_fails_closed platform req rr e :
  check_rls_status_reply (upstream (client_of platform req)) = Returns rr ->
  error rr = Some e ->
  (forall w, exists f,
      (checkRLSStatus (client_of platform req) w).1 = Returns [f]
      /\ rls_enabled f = false /\ has_policies f = false /\ policy_count f = 0%Z)
  /\ (forall w mfa rls pitr logs w',
        GET platform req w = (Returns (mkResponse 200 (Report mfa rls pitr logs)), w') ->
        exists f, rls = [f]
                  /\ rls_enabled f = false /\ has_policies f = false
                  /\ policy_count f = 0%Z).
Proof.
  intros Hrr He. split.
  - intros w. rewrite checkRLSStatus_run. cbv zeta. rewrite Hrr, He.
    eexists. split; [reflexivity|]. by repeat split.
  - intros w mfa rls pitr logs w' HGET.
    apply GET_report in HGET as [_ Hrun].
    apply run_checks_returns in Hrun as (us & rr' & pr & logs' & _ & Hrr' & _ & _ & Heq).
    rewrite Hrr in Hrr'. injection Hrr' as <-. injection Heq as _ -> _ _.
    unfold rls_findings. rewrite He. eexists. split; [reflexivity|]. by repeat split.
Qed.

Lemma rls_error_fails_closed_witness :
  exists f,
    (checkRLSStatus (client_of scenario_B logged_in) start).1 = Returns [f]
    /\ rls_enabled f = false /\ has_policies f = false /\ policy_count f = 0%Z.
Proof.
  exact (proj1 (rls_error_fails_closed scenario_B logged_in _ _ eq_refl eq_refl) start).
Defined.




(** C5.  The row [logSecurityIssue] hands to the store, and so the record
    created when the store accepts it, carries the feature, the status and
    the resource it was given; its suggested fix is the feature's text when
    the status is failing and null when it is passing; its auto-fixable flag
    is, when failing, true exactly for RLS, and false when passing.  At most
    one record is created, and exactly one when the store accepts. *)
Theorem failing_issue_carries_fix c f s r w :
  exists created,
    security_logs (logSecurityIssue c f s r w).2 = security_logs w ++ created
    /\ length created
       = match insert_reply (upstream c) (length (outbound w)) (issue_row f s r) with
         | Returns None => 1
         | _ => 0
         end
    /\ Forall (fun rec =>
                 feature (log_row rec) = f
                 /\ status (log_row rec) = s
                 /\ resource_name (log_row rec) = r
                 /\ suggested_fix (log_row rec)
                    = (if s then None else Some (suggestedFixes f))
                 /\ auto_fixable (log_row rec)
                    = (if s then false else bool_decide (f = RLS)))
              created.
Proof.
  rewrite logSecurityIssue_run. cbv zeta.
  destruct (insert_reply _ _ _) as [[e|]|e]; simpl.
  1,3: exists []; rewrite app_nil_r; by repeat split.
  eexists [_]. split; [reflexivity|]. split; [reflexivity|].
  constructor; [|constructor]. simpl.
  by destruct s, f.
Qed.



(** The row written for [drafts] is failing although its flag is on. *)
Example drafts_logged_failing :
  map log_row (security_logs (GET no_policy logged_in start).2)
  = [ mkInsertRow RLS false (Some "drafts")
        (Some (suggestedFixes RLS)) true;
      mkInsertRow PITR false None (Some (suggestedFixes PITR)) false ].
Proof. reflexivity. Qed.

(** C7, as stated, fails.  The remote procedure answers a row with
    [has_policies = true] and [policy_count = 0]; the finding of the report
    repeats both members. *)
Lemma has_policies_not_derived :
  ~ (forall platform req w mfa rls pitr logs w',
       GET platform req w = (Returns (mkResponse 200 (Report mfa rls pitr logs)), w') ->
       Forall (fun f => has_policies f = (0 <? policy_count f)%Z) rls).
Proof.
  intros H.
  assert (exists mfa pitr logs w',
            GET inconsistent_row logged_in start
            = (Returns (mkResponse 200
                          (Report mfa [mkRlsResult "orders" true true 0] pitr logs)), w'))
    as (mfa & pitr & logs & w' & Hrun) by (do 4 eexists; vm_compute; reflexivity).
  apply H, Forall_cons_1 in Hrun as [Hf _]. discriminate Hf.
Qed.

(** C7, amended.  The findings of a report repeat, relation by relation and
    in order, the four members of the rows the introspection answered (or
    are the synthetic finding); so [has_policies] equals [policy_count > 0]
    in every finding whenever it does in every row answered. *)
Theorem rls_members_copied platform req w mfa rls pitr logs w' :
  GET platform req w = (Returns (mkResponse 200 (Report mfa rls pitr logs)), w') ->
  exists rr,
    check_rls_status_reply (upstream (client_of platform req)) = Returns rr
    /\ (error rr = None ->
        Forall2 (fun t f =>
                   table f = table_name t
                   /\ rls_enabled f = row_rls_enabled t
                   /\ has_policies f = row_has_policies t
                   /\ policy_count f = row_policy_count t)
                (default [] (data rr)) rls)
    /\ (Forall (fun t => row_has_policies t = (0 <? row_policy_count t)%Z)
               (default [] (data rr)) ->
        Forall (fun f => has_policies f = (0 <? policy_count f)%Z) rls).
Proof.
  intros HGET. apply GET_report in HGET as [_ Hrun].
  apply run_checks_returns in Hrun as (us & rr & pr & logs' & _ & Hrr & _ & _ & Heq).
  injection Heq as _ -> _ _.
  exists rr. split; [exact Hrr|]. unfold rls_findings. split.
  - intros ->. apply Forall2_fmap_r, Forall_Forall2_diag, Forall_forall.
    by intros t _.
  - intros Hrows. destruct (error rr).
    + by repeat constructor.
    + apply Forall_fmap. eapply Forall_impl; [exact Hrows|]. by intros t Ht.
Qed.

Lemma rls_members_copied_witness :
  exists rr (rls : list RlsResult),
    check_rls_status_reply (upstream (client_of scenario_A logged_in)) = Returns rr
    /\ Forall (fun f => has_policies f = (0 <? policy_count f)%Z) rls.
Proof.
  assert (exists mfa rls pitr logs w',
            GET scenario_A logged_in start
            = (Returns (mkResponse 200 (Report mfa rls pitr logs)), w'))
    as (mfa & rls & pitr & logs & w' & Hrun) by evaluate_run.
  destruct (rls_members_copied _ _ _ _ _ _ _ _ Hrun) as (rr & Hrr & _ & Hderived).
  exists rr, rls. split; [exact Hrr|]. apply Hderived.
  injection Hrr as <-. by repeat constructor.
Defined.

(** C8.  The MFA list of a report has one finding per principal the listing
    returned, in the listing's order; each carries the principal's id and
    email, and is enabled exactly when the principal has a list of factors
    with at least one element. *)
Theorem mfa_finding_per_principal platform req w mfa rls pitr logs w' :
  GET platform req w = (Returns (mkResponse 200 (Report mfa rls pitr logs)), w') ->
  exists us,
    listUsers_reply (upstream (client_of platform req)) = Returns (us, None)
    /\ length mfa = length us
    /\ Forall2 (fun u f =>
                  mfa_id f = user_id u
                  /\ mfa_email f = email u
                  /\ (mfa_enabled f = true <->
                      exists fs, factors u = Some fs /\ 1 <= length fs))
               us mfa.
Proof.
  intros HGET. apply GET_report in HGET as [_ Hrun].
  apply run_checks_returns in Hrun as (us & rr & pr & logs' & Hus & _ & _ & _ & Heq).
  injection Heq as -> _ _ _.
  exists us. split; [exact Hus|]. split; [apply length_map|].
  apply Forall2_fmap_r, Forall_Forall2_diag, Forall_forall.
  intros u _. split; [reflexivity|]. split; [reflexivity|].
  unfold mfa_result_of, has_factor. simpl. destruct (factors u) as [fs|].
  - rewrite Nat.ltb_lt. split.
    + intros H. exists fs. split; [reflexivity | lia].
    + intros (fs' & [= <-] & H). lia.
  - split; [discriminate | by intros (fs & [=] & _)].
Qed.

Lemma mfa_finding_per_principal_witness :
  exists us (mfa : list MfaResult),
    listUsers_reply (upstream (client_of scenario_A logged_in)) = Returns (us, None)
    /\ length mfa = length us.
Proof.
  assert (exists mfa rls pitr logs w',
            GET scenario_A logged_in start
            = (Returns (mkResponse 200 (Report mfa rls pitr logs)), w'))
    as (mfa & rls & pitr & logs & w' & Hrun) by evaluate_run.
  destruct (mfa_finding_per_principal _ _ _ _ _ _ _ _ Hrun) as (us & Hus & Hlen & _).
  exists us, mfa. by split.
Defined.

(** ** Further properties of the run *)

Lemma traced_refl P w : traced P w w.
Proof. exists []. rewrite app_nil_r. split; constructor. Qed.

Lemma traced_trans P w1 w2 w3 : traced P w1 w2 -> traced P w2 w3 -> traced P w1 w3.
Proof.
  intros (c1 & H1 & P1) (c2 & H2 & P2). exists (c1 ++ c2).
  rewrite H2, H1, app_assoc. split; [reflexivity | by apply Forall_app].
Qed.

Lemma traced_same P w w' : outbound w' = outbound w -> traced P w w'.
Proof. intros H. exists []. rewrite app_nil_r. split; [exact H | constructor]. Qed.

Lemma traced_called (P : Call -> Prop) call w : P call -> traced P w (called call w).
Proof. intros H. exists [call]. split; [reflexivity | by repeat constructor]. Qed.

Lemma traced_weaken (P Q : Call -> Prop) w w' :
  (forall call, P call -> Q call) -> traced P w w' -> traced Q w w'.
Proof.
  intros HPQ (calls & Hc & HP). exists calls. split; [exact Hc|].
  eapply Forall_impl; [exact HP | exact HPQ].
Qed.

Lemma logSecurityIssue_inserts c f s r w :
  traced (fun call => exists row, call = insert_call c row) w
         (logSecurityIssue c f s r w).2.
Proof.
  rewrite logSecurityIssue_run. cbv zeta.
  destruct (insert_reply _ _ _) as [[e|]|e]; simpl.
  1,3: apply traced_called; by eexists.
  eapply traced_trans; [apply traced_called; by eexists | by apply traced_same].
Qed.

Lemma log_loop_inserts {A} c f (st : A -> bool) (rn : A -> option string) (xs : list A) w :
  traced (fun call => exists row, call = insert_call c row) w
         (for_of xs (fun x => logSecurityIssue c f (st x) (rn x)) w).2.
Proof.
  revert w. induction xs as [|x xs IH]; intros w; simpl; [apply traced_refl|].
  unfold bind. pose proof (logSecurityIssue_inserts c f (st x) (rn x) w) as H1.
  destruct (logSecurityIssue c f (st x) (rn x) w) as [[[]|e] w1]; simpl in *;
    [|exact H1].
  eapply traced_trans; [exact H1 | apply IH].
Qed.

Lemma insert_uses_client c call :
  (exists row, call = insert_call c row) -> uses_client c call.
Proof. by intros (row & ->). Qed.

Lemma logSecurityIssue_traced c f s r w :
  traced (uses_client c) w (logSecurityIssue c f s r w).2.
Proof.
  eapply traced_weaken; [apply insert_uses_client | apply logSecurityIssue_inserts].
Qed.

Lemma log_loop_traced {A} c f (st : A -> bool) (rn : A -> option string) (xs : list A) w :
  traced (uses_client c) w (for_of xs (fun x => logSecurityIssue c f (st x) (rn x)) w).2.
Proof.
  eapply traced_weaken; [apply insert_uses_client | apply log_loop_inserts].
Qed.

Lemma checkRLSStatus_traced c w :
  traced (uses_client c) w (checkRLSStatus c w).2.
Proof.
  rewrite checkRLSStatus_run. cbv zeta.
  assert (Hcall : traced (uses_client c) w (called (rls_call c) w)).
  { apply traced_called. repeat split. by left. }
  destruct (check_rls_status_reply (upstream c)) as [reply|e]; [|exact Hcall].
  destruct (error reply) as [e|].
  { eapply traced_trans; [exact Hcall | by apply traced_same]. }
  destruct (data reply) as [rows|]; [|exact Hcall].
  pose proof (log_loop_traced c RLS (fun t => row_rls_enabled t && row_has_policies t)
                (fun t => Some (table_name t)) rows (called (rls_call c) w)) as Hloop.
  destruct (for_of rows _ _) as [[[]|e] w2]; simpl in *;
    (eapply traced_trans; [exact Hcall | exact Hloop]).
Qed.

(** The calls of a run: the listing first, then only calls of the client. *)
Lemma run_checks_traced c w :
  exists rest,
    outbound (run_checks c w).2 = outbound w ++ list_call c :: rest
    /\ Forall (uses_client c) rest.
Proof.
  assert (Hshape : forall w',
            traced (uses_client c) (called (list_call c) w) w' ->
            exists rest, outbound w' = outbound w ++ list_call c :: rest
                         /\ Forall (uses_client c) rest).
  { intros w' (calls & Hc & HP). exists calls. split; [|exact HP].
    rewrite Hc. simpl. by rewrite <- app_assoc. }
  apply Hshape. rewrite run_checks_run. cbv zeta.
  destruct (listUsers_reply (upstream c)) as [[us [e|]]|e]; try apply traced_refl.
  pose proof (log_loop_traced c MFA mfa_enabled mfa_email (map mfa_result_of us)
                (called (list_call c) w)) as Hmfa.
  destruct (for_of (map mfa_result_of us) _ _) as [[[]|e] w2]; simpl in Hmfa;
    [|exact Hmfa].
  eapply traced_trans; [exact Hmfa|]. clear Hmfa.
  pose proof (checkRLSStatus_traced c w2) as Hrls.
  destruct (checkRLSStatus c w2) as [[fs|e] w3]; simpl in Hrls; [|exact Hrls].
  eapply traced_trans; [exact Hrls|]. clear Hrls.
  assert (Hcall : traced (uses_client c) w3 (called (pitr_call c) w3)).
  { apply traced_called. repeat split. by right. }
  eapply traced_trans; [exact Hcall|]. clear Hcall.
  destruct (check_pitr_status_reply (upstream c)) as [pr|e]; [|apply traced_refl].
  set (w5 := match error pr with Some e => _ | None => _ end).
  assert (H5 : outbound w5 = outbound (called (pitr_call c) w3))
    by (unfold w5; by destruct (error pr)).
  eapply traced_trans; [by apply (traced_same _ _ w5)|].
  pose proof (logSecurityIssue_traced c PITR (pitr_of (data pr)) None w5) as Hp.
  destruct (logSecurityIssue c PITR _ _ _) as [[[]|e] w6]; simpl in Hp; [|exact Hp].
  eapply traced_trans; [exact Hp|].
  assert (traced (uses_client c) w6 (called (select_call c) w6))
    by (apply traced_called; by repeat split).
  by destruct (select_reply (upstream c) _) as [logs|e].
Qed.

Lemma issue_row_well_formed f s r :
  (f = PITR -> r = None) -> (f = RLS -> is_Some r) -> well_formed_row (issue_row f s r).
Proof.
  intros Hp Hr. unfold well_formed_row, issue_row. simpl.
  repeat split; try done; destruct s, f; simpl; try done; intros; try tauto.
  all: try by destruct H.
Qed.

(** The rows the handler appends, whatever its answer. *)
Lemma GET_appended platform req w :
  let c := client_of platform req in
  appended (fun row =>
              (exists us u, listUsers_reply (upstream c) = Returns (us, None)
                            /\ u ∈ us /\ row = mfa_row_of u)
              \/ (exists reply rows t,
                    check_rls_status_reply (upstream c) = Returns reply
                    /\ error reply = None /\ data reply = Some rows
                    /\ t ∈ rows /\ row = rls_row_of t)
              \/ (exists pr, check_pitr_status_reply (upstream c) = Returns pr
                             /\ row = issue_row PITR (pitr_of (data pr)) None))
           w (GET platform req w).2.
Proof.
  intros c. destruct (authenticated req) eqn:Hauth.
  - destruct (client_error (upstream c)) as [e|] eqn:Hbuilt.
    { rewrite (GET_not_built _ _ _ _ Hauth Hbuilt). apply appended_refl. }
    rewrite (GET_run _ _ _ Hauth Hbuilt).
    pose proof (run_checks_appended c w) as H. fold c.
    destruct (run_checks c w) as [[resp|e] w1]; exact H.
  - rewrite (GET_unauthenticated _ _ _ Hauth). apply appended_refl.
Qed.

(** X1.  Whatever the platform answers and whatever the handler answers, a
    run leaves the rows of the table in place and only appends rows; each
    appended row has a suggested fix exactly when its status is failing, is
    marked auto-fixable exactly when it is a failing RLS row, names no
    resource when it is the PITR row and names one when it is an RLS row. *)
Theorem run_only_appends_well_formed_rows platform req w :
  exists news,
    security_logs (GET platform req w).2 = security_logs w ++ news
    /\ Forall (fun rec => well_formed_row (log_row rec)) news.
Proof.
  destruct (GET_appended platform req w) as (news & Hlogs & Hrows).
  exists news. split; [exact Hlogs|].
  eapply Forall_impl; [exact Hrows|]. cbv beta.
  intros rec [(us & u & _ & _ & ->)|[(reply & rows & t & _ & _ & _ & _ & ->)
                                    |(pr & _ & ->)]];
    apply issue_row_well_formed; try done; by eexists.
Qed.

(** X2.  Every call a run makes carries the URL and the key of the session
    cookies and is the listing of principals, one of the two status
    procedures, or an insert into or a select from [security_logs]; with a
    cookie missing, or when no client can be built from the cookies, no
    call is made, otherwise the listing is the first. *)
Theorem run_calls_use_session_credentials platform req w :
  exists calls,
    outbound (GET platform req w).2 = outbound w ++ calls
    /\ Forall (uses_client (client_of platform req)) calls
    /\ calls = (if authenticated req
                then match client_error (upstream (client_of platform req)) with
                     | Some _ => []
                     | None => list_call (client_of platform req) :: drop 1 calls
                     end
                else []).
Proof.
  destruct (authenticated req) eqn:Hauth.
  - destruct (client_error (upstream (client_of platform req))) as [e|] eqn:Hbuilt.
    + exists []. rewrite (GET_not_built _ _ _ _ Hauth Hbuilt), app_nil_r. by repeat split.
    + destruct (run_checks_traced (client_of platform req) w) as (rest & Hout & Hrest).
      exists (list_call (client_of platform req) :: rest).
      rewrite (GET_run _ _ _ Hauth Hbuilt).
      split; [|split; [|reflexivity]].
      * by destruct (run_checks _ w) as [[resp|e] w1].
      * constructor; [by split | exact Hrest].
  - exists []. rewrite (GET_unauthenticated _ _ _ Hauth), app_nil_r. by repeat split.
Qed.

(** The four outcomes of the handler. *)
Lemma GET_answers platform req w :
  (exists mfa rls pitr logs,
     (GET platform req w).1 = Returns (mkResponse 200 (Report mfa rls pitr logs)))
  \/ (GET platform req w).1 = Returns (mkResponse 401 (Failure "Not authenticated" None))
  \/ (exists e,
        (GET platform req w).1 = Returns (mkResponse 500 (Failure (message e) (Some e))))
  \/ (exists e,
        client_error (upstream (client_of platform req)) = Some e
        /\ GET platform req w = (Throws e, w)).
Proof.
  destruct (authenticated req) eqn:Hauth.
  - destruct (client_error (upstream (client_of platform req))) as [e|] eqn:Hbuilt.
    { right. right. right. exists e. split; [reflexivity | by apply GET_not_built]. }
    rewrite (GET_run _ _ _ Hauth Hbuilt).
    destruct (run_checks _ w) as [[resp|e] w1] eqn:Hrun.
    + apply run_checks_returns in Hrun as (us & rr & pr & logs & _ & _ & _ & _ & ->).
      left. by do 4 eexists.
    + right. right. left. by exists e.
  - rewrite (GET_unauthenticated _ _ _ Hauth). right. by left.
Qed.

(** X3.  The handler rejects only when both cookies are present and
    [createClient] throws on them (a project URL that is not a URL); it
    then rejects with that exception, having done nothing.  In every other
    case it answers: 200 with a report, 401 with [Not authenticated]
    (leaving the world untouched), or 500 with the message of the error it
    caught, in which case that error is the last line written on the
    console. *)
Theorem run_checks_handler_outcomes platform req w :
  match (GET platform req w).1 with
  | Throws e =>
      authenticated req = true
      /\ client_error (upstream (client_of platform req)) = Some e
      /\ (GET platform req w).2 = w
  | Returns resp =>
      (authenticated req = false
       \/ client_error (upstream (client_of platform req)) = None)
      /\ ((http_status resp = 200
           /\ exists mfa rls pitr logs, body resp = Report mfa rls pitr logs)
          \/ (resp = mkResponse 401 (Failure "Not authenticated" None)
              /\ (GET platform req w).2 = w)
          \/ (exists e,
                resp = mkResponse 500 (Failure (message e) (Some e))
                /\ last (console (GET platform req w).2)
                   = Some (mkConsoleLine "Error running checks:" (Some e))))
  end.
Proof.
  destruct (authenticated req) eqn:Hauth.
  - destruct (client_error (upstream (client_of platform req))) as [e|] eqn:Hbuilt.
    { by rewrite (GET_not_built _ _ _ _ Hauth Hbuilt). }
    rewrite (GET_run _ _ _ Hauth Hbuilt).
    destruct (run_checks _ w) as [[resp|e] w1] eqn:Hrun.
    + apply run_checks_returns in Hrun as (us & rr & pr & logs & _ & _ & _ & _ & ->).
      simpl. split; [by right|]. left. split; [reflexivity|]. by do 4 eexists.
    + simpl. split; [by right|]. right. right. exists e.
      split; [reflexivity|]. apply last_snoc.
  - rewrite (GET_unauthenticated _ _ _ Hauth). simpl.
    split; [by left|]. right. left. by split.
Qed.

(** X4.  With both cookies present, when the listing and both status
    procedures answer data without error and the store accepts every row,
    the run appends exactly one row per finding of its report: the rows of
    the principals in the listing's order, then the rows of the relations
    in the introspection's order, then the row of the recovery probe. *)
Theorem one_row_per_finding_when_accepted platform req w us rr rows pr :
  authenticated req = true ->
  let up := upstream (client_of platform req) in
  listUsers_reply up = Returns (us, None) ->
  check_rls_status_reply up = Returns rr -> error rr = None -> data rr = Some rows ->
  check_pitr_status_reply up = Returns pr ->
  inserts_accepted up ->
  exists news,
    security_logs (GET platform req w).2 = security_logs w ++ news
    /\ map log_row news
       = map mfa_row_of us ++ map rls_row_of rows
         ++ [issue_row PITR (pitr_of (data pr)) None]
    /\ length news = length us + length rows + 1.
Proof.
  intros Hauth up Hus Hrr He Hd Hpr Hacc.
  destruct (run_checks_rows_accepted _ w _ _ _ _ Hus Hrr He Hd Hpr Hacc)
    as (news & Hlogs & Hmap).
  exists news. rewrite (GET_run _ _ _ Hauth (listing_built _ _ Hus)).
  split; [by destruct (run_checks _ w) as [[resp|e] w1]|].
  split; [exact Hmap|].
  rewrite <- (length_map log_row), Hmap, !length_app, !length_map. simpl. lia.
Qed.

Lemma one_row_per_finding_when_accepted_witness :
  exists news,
    security_logs (GET scenario_A logged_in start).2 = security_logs start ++ news
    /\ length news = 2 + 1 + 1.
Proof.
  destruct (one_row_per_finding_when_accepted scenario_A logged_in start
              [alice; bob] _ [mkRlsRow "orders" true true 2] _
              eq_refl eq_refl eq_refl eq_refl eq_refl eq_refl
              ltac:(intros n row; reflexivity))
    as (news & Hlogs & _ & Hlen).
  exists news. by split.
Defined.

(** X5.  Of the rows a run that returns a report has appended, every MFA
    row names the email of a finding of the report's MFA list and has that
    finding's [mfa_enabled] as status, and every PITR row names no resource
    and has the report's PITR flag as status. *)
Theorem mfa_and_pitr_rows_match_report platform req w mfa rls pitr logs w' :
  GET platform req w = (Returns (mkResponse 200 (Report mfa rls pitr logs)), w') ->
  exists news,
    security_logs w' = security_logs w ++ news
    /\ Forall (fun rec =>
                 (feature (log_row rec) = MFA ->
                  exists f, f ∈ mfa
                    /\ resource_name (log_row rec) = mfa_email f
                    /\ status (log_row rec) = mfa_enabled f)
                 /\ (feature (log_row rec) = PITR ->
                     resource_name (log_row rec) = None
                     /\ status (log_row rec) = pitr))
              news.
Proof.
  intros HGET.
  pose proof (GET_appended platform req w) as (news & Hlogs & Hrows).
  rewrite HGET in Hlogs. simpl in Hlogs.
  apply GET_report in HGET as [_ Hrun].
  apply run_checks_returns in Hrun as (us & rr & pr & logs' & Hus & _ & _ & Hpr & Heq).
  injection Heq as -> _ -> _.
  exists news. split; [exact Hlogs|].
  eapply Forall_impl; [exact Hrows|]. cbv beta.
  intros rec [(us' & u & Hus' & Hu & ->)|[(reply & rows & t & _ & _ & _ & _ & ->)
                                         |(pr' & Hpr' & ->)]].
  - split; [|intros [=]]. intros _.
    rewrite Hus in Hus'. injection Hus' as <-.
    exists (mfa_result_of u). split; [by apply list_elem_of_fmap_2 | by split].
  - split; intros [=].
  - split; [intros [=]|]. intros _.
    rewrite Hpr in Hpr'. injection Hpr' as <-. by split.
Qed.

Lemma mfa_and_pitr_rows_match_report_witness :
  exists (mfa : list MfaResult) (pitr : bool) news,
    security_logs (GET scenario_A logged_in start).2 = security_logs start ++ news
    /\ Forall (fun rec =>
                 (feature (log_row rec) = MFA ->
                  exists f, f ∈ mfa
                    /\ resource_name (log_row rec) = mfa_email f
                    /\ status (log_row rec) = mfa_enabled f)
                 /\ (feature (log_row rec) = PITR ->
                     resource_name (log_row rec) = None
                     /\ status (log_row rec) = pitr))
              news.
Proof.
  assert (exists mfa rls pitr logs w',
            GET scenario_A logged_in start
            = (Returns (mkResponse 200 (Report mfa rls pitr logs)), w'))
    as (mfa & rls & pitr & logs & w' & Hrun) by evaluate_run.
  destruct (mfa_and_pitr_rows_match_report _ _ _ _ _ _ _ _ Hrun)
    as (news & Hlogs & Hrows).
  exists mfa, pitr, news. rewrite Hrun. by split.
Defined.

(** X6.  The PITR flag of a report is true exactly when the recovery probe
    answered data whose first row has [pitr_enabled] true: a reply without
    data, or with an empty list, is reported as [false]. *)
Theorem pitr_flag_is_first_row platform req w mfa rls pitr logs w' :
  GET platform req w = (Returns (mkResponse 200 (Report mfa rls pitr logs)), w') ->
  exists pr,
    check_pitr_status_reply (upstream (client_of platform req)) = Returns pr
    /\ (pitr = true <->
        exists r rest, data pr = Some (r :: rest) /\ pitr_enabled r = true).
Proof.
  intros HGET. apply GET_report in HGET as [_ Hrun].
  apply run_checks_returns in Hrun as (us & rr & pr & logs' & _ & _ & _ & Hpr & Heq).
  injection Heq as _ _ -> _.
  exists pr. split; [exact Hpr|]. unfold pitr_of.
  destruct (data pr) as [[|r rest]|].
  - split; [discriminate | by intros (? & ? & [=] & _)].
  - rewrite orb_false_r. split.
    + intros H. by exists r, rest.
    + by intros (r' & rest' & [= <- _] & H).
  - split; [discriminate | by intros (? & ? & [=] & _)].
Qed.

Lemma pitr_flag_is_first_row_witness :
  exists pr (pitr : bool),
    check_pitr_status_reply (upstream (client_of no_policy logged_in)) = Returns pr
    /\ (pitr = true <->
        exists r rest, data pr = Some (r :: rest) /\ pitr_enabled r = true)
    /\ pitr = false.
Proof.
  assert (exists mfa rls logs w',
            GET no_policy logged_in start
            = (Returns (mkResponse 200 (Report mfa rls false logs)), w'))
    as (mfa & rls & logs & w' & Hrun) by (do 4 eexists; vm_compute; reflexivity).
  destruct (pitr_flag_is_first_row _ _ _ _ _ _ _ _ Hrun) as (pr & Hpr & Hiff).
  exists pr, false. split; [exact Hpr | split; [exact Hiff | reflexivity]].
Defined.

(** The rows of the principals are all written before the introspection is
    read. *)
Lemma run_checks_rows_until_rls_aborts c w us rr :
  listUsers_reply (upstream c) = Returns (us, None) ->
  inserts_accepted (upstream c) ->
  check_rls_status_reply (upstream c) = Returns rr ->
  error rr = None -> data rr = None ->
  exists news w',
    run_checks c w = (Throws (TypeError "rlsData is not iterable"), w')
    /\ security_logs w' = security_logs w ++ news
    /\ map log_row news = map mfa_row_of us.
Proof.
  intros Hus Hacc Hrr He Hd.
  assert (Hret : inserts_return (upstream c)) by (intros n row; eexists; apply Hacc).
  rewrite run_checks_run. cbv zeta. rewrite Hus.
  destruct (log_loop_accepted c MFA mfa_enabled mfa_email (map mfa_result_of us)
              (called (list_call c) w) Hacc) as (news & Hlogs & Hmap).
  pose proof (log_loop_returns c MFA mfa_enabled mfa_email (map mfa_result_of us)
                (called (list_call c) w) Hret) as Hr.
  destruct (for_of (map mfa_result_of us) _ _) as [[[]|e'] w2]; [|discriminate].
  rewrite checkRLSStatus_run. cbv zeta. rewrite Hrr, He, Hd.
  exists news. eexists. split; [reflexivity|]. split; [exact Hlogs|].
  by rewrite Hmap, map_map.
Qed.

(** X7.  A run is not undone when it aborts.  With both cookies present, a
    listing that answers principals and a store that accepts every row,
    when the reply of the RLS introspection has neither an error nor data
    the handler answers 500 with the TypeError of the loop and no finding,
    and the rows of the principals, one each and in the listing's order,
    stay in the table. *)
Theorem aborted_run_keeps_rows_written platform req w us rr :
  authenticated req = true ->
  let up := upstream (client_of platform req) in
  listUsers_reply up = Returns (us, None) ->
  inserts_accepted up ->
  check_rls_status_reply up = Returns rr ->
  error rr = None -> data rr = None ->
  exists news,
    (GET platform req w).1
    = Returns (mkResponse 500
                 (Failure "rlsData is not iterable"
                          (Some (TypeError "rlsData is not iterable"))))
    /\ security_logs (GET platform req w).2 = security_logs w ++ news
    /\ map log_row news = map mfa_row_of us.
Proof.
  intros Hauth up Hus Hacc Hrr He Hd.
  destruct (run_checks_rows_until_rls_aborts _ w _ _ Hus Hacc Hrr He Hd)
    as (news & w' & Hrun & Hlogs & Hmap).
  exists news. rewrite (GET_run _ _ _ Hauth (listing_built _ _ Hus)), Hrun.
  by repeat split.
Qed.

Lemma aborted_run_keeps_rows_written_witness :
  exists news,
    (GET no_data logged_in start).1
    = Returns (mkResponse 500
                 (Failure "rlsData is not iterable"
                          (Some (TypeError "rlsData is not iterable"))))
    /\ security_logs (GET no_data logged_in start).2 = security_logs start ++ news
    /\ map log_row news = map mfa_row_of [alice].
Proof.
  exact (aborted_run_keeps_rows_written no_data logged_in start
           [alice] _ eq_refl eq_refl
           ltac:(intros n row; reflexivity) eq_refl eq_refl eq_refl).
Defined.

(** X8.  A reply of the RLS introspection with neither an error nor data
    cannot be iterated: with both cookies present, the listing answered and
    no insert throwing, the run is answered 500 with a TypeError, the
    recovery probe is not made, and only rows of principals were written. *)
Theorem rls_reply_without_data_aborts platform req w us rr :
  authenticated req = true ->
  let c := client_of platform req in
  listUsers_reply (upstream c) = Returns (us, None) ->
  inserts_return (upstream c) ->
  check_rls_status_reply (upstream c) = Returns rr ->
  error rr = None -> data rr = None ->
  exists e news calls,
    (GET platform req w).1 = Returns (mkResponse 500 (Failure (message e) (Some e)))
    /\ err_name e = "TypeError"
    /\ security_logs (GET platform req w).2 = security_logs w ++ news
    /\ Forall (fun rec => feature (log_row rec) = MFA) news
    /\ outbound (GET platform req w).2 = outbound w ++ calls
    /\ pitr_call c ∉ calls.
Proof.
  intros Hauth c Hus Hret Hrr He Hd.
  rewrite (GET_run _ _ _ Hauth (listing_built _ _ Hus)). fold c.
  rewrite run_checks_run. cbv zeta. rewrite Hus.
  pose proof (log_loop_appended c MFA mfa_enabled mfa_email (map mfa_result_of us)
                (called (list_call c) w)) as (news & Hlogs & Hrows).
  pose proof (log_loop_inserts c MFA mfa_enabled mfa_email (map mfa_result_of us)
                (called (list_call c) w)) as (calls & Hcalls & Hins).
  pose proof (log_loop_returns c MFA mfa_enabled mfa_email (map mfa_result_of us)
                (called (list_call c) w) Hret) as Hr.
  destruct (for_of (map mfa_result_of us) _ _) as [[[]|e'] w2]; [|discriminate].
  rewrite checkRLSStatus_run. cbv zeta. rewrite Hrr, He, Hd. simpl in *.
  exists (TypeError "rlsData is not iterable"), news,
         (list_call c :: calls ++ [rls_call c]).
  split; [reflexivity|]. split; [reflexivity|]. split; [exact Hlogs|].
  split; [eapply Forall_impl; [exact Hrows|]; by intros rec (f & _ & ->)|].
  split; [rewrite Hcalls; simpl; by rewrite <- !app_assoc|].
  intros Hin. apply elem_of_cons in Hin as [[=]|Hin].
  apply elem_of_app in Hin as [Hin|Hin].
  - rewrite Forall_forall in Hins. destruct (Hins _ Hin) as (row & [=]).
  - apply list_elem_of_singleton in Hin. discriminate Hin.
Qed.

Lemma rls_reply_without_data_aborts_witness :
  exists e news calls,
    (GET no_data logged_in start).1
    = Returns (mkResponse 500 (Failure (message e) (Some e)))
    /\ err_name e = "TypeError"
    /\ security_logs (GET no_data logged_in start).2 = security_logs start ++ news
    /\ outbound (GET no_data logged_in start).2 = outbound start ++ calls
    /\ pitr_call (client_of no_data logged_in) ∉ calls.
Proof.
  destruct (rls_reply_without_data_aborts no_data logged_in start [alice] _
              eq_refl eq_refl ltac:(intros n row; by eexists) eq_refl eq_refl eq_refl)
    as (e & news & calls & H1 & H2 & H3 & _ & H4 & H5).
  by exists e, news, calls.
Defined.

(** *** Reading the log back *)



End RunChecksFacts.

(** * Properties of the security-chat route *)

Module SecurityChatFacts.
Import SecurityChat.

Lemma chat_POST_run openai b w :
  POST openai (Returns b) w =
  let w1 := called (CallChat (chat_request b)) w in
  let failed e :=
    (Returns (mkResponse 500 (Failure "Failed to process chat message")),
     noted "Error in security chat:" (Some e) w1) in
  match openai (chat_request b) with
  | Throws e => failed e
  | Returns completion =>
      match choices completion with
      | c :: _ => (Returns (mkResponse 200 (Answer (content (choice_message c)))), w1)
      | [] => failed (TypeError "Cannot read properties of undefined (reading 'message')")
      end
  end.
Proof.
  unfold POST, try_catch, chat_completions_create, first_content, bind, await,
    record_call. cbv zeta.
  destruct (openai (chat_request b)) as [[[|c cs]]|e]; reflexivity.
Qed.

Lemma systemPrompt_parts f r :
  systemPrompt f r
  = prompt_head +:+ securityDocs f +:+ "
    " +:+ resource_line r +:+ prompt_tail.
Proof. reflexivity. Qed.

(** C9.  For every parsed body [{ messages, feature, resourceName }] and in
    every world, the handler makes exactly one outbound call, the
    chat-completion request whose message list is the system message built
    from the feature's reference text (and the line naming the resource
    when one is supplied) followed by the role and content of the
    transcript's messages in their order; the table is untouched; when the
    capability answers a completion with a first choice, the reply is that
    choice's content; and the request sent and the answer do not depend on
    the world the call starts from. *)
Theorem chat_sends_seed_then_transcript openai b w :
  exists o w',
    POST openai (Returns b) w = (o, w')
    /\ outbound w' = outbound w ++ [CallChat (chat_request b)]
    /\ security_logs w' = security_logs w
    /\ messages (chat_request b)
       = seed (body_feature b) (resourceName b) :: map forwarded (body_messages b)
    /\ content (seed (body_feature b) (resourceName b))
       = prompt_head +:+ securityDocs (body_feature b) +:+ "
    " +:+ resource_line (resourceName b) +:+ prompt_tail
    /\ (forall name, resourceName b = Some name -> name <> EmptyString ->
        resource_line (resourceName b) = "Specifically for resource: " +:+ name)
    /\ (resourceName b = None -> resource_line (resourceName b) = EmptyString)
    /\ (forall i m, body_messages b !! i = Some m ->
        messages (chat_request b) !! S i
        = Some (mkChatMessage (msg_role m) (msg_content m)))
    /\ (forall c cs, openai (chat_request b) = Returns (mkCompletion (c :: cs)) ->
        o = Returns (mkResponse 200 (Answer (content (choice_message c)))))
    /\ (forall w2,
        (POST openai (Returns b) w2).1 = o
        /\ outbound (POST openai (Returns b) w2).2
           = outbound w2 ++ [CallChat (chat_request b)]).
Proof.
  exists (POST openai (Returns b) w).1, (POST openai (Returns b) w).2.
  split; [by destruct (POST openai (Returns b) w)|].
  assert (Hworld : forall w0,
            outbound (POST openai (Returns b) w0).2
            = outbound w0 ++ [CallChat (chat_request b)]
            /\ security_logs (POST openai (Returns b) w0).2 = security_logs w0).
  { intros w0. rewrite chat_POST_run. cbv zeta.
    destruct (openai (chat_request b)) as [[[|c cs]]|e]; by split. }
  split; [apply Hworld|]. split; [apply Hworld|].
  split; [reflexivity|]. split; [reflexivity|].
  split.
  { intros name -> Hname. unfold resource_line, truthy_str.
    apply String.eqb_neq in Hname. by rewrite Hname. }
  split; [by intros ->|].
  split.
  { intros i m Hm. simpl. by rewrite list_lookup_fmap, Hm. }
  split.
  { intros c cs Hc. rewrite chat_POST_run. cbv zeta. by rewrite Hc. }
  intros w2. split; [|apply Hworld].
  rewrite !chat_POST_run. cbv zeta.
  destruct (openai (chat_request b)) as [[[|c cs]]|e]; reflexivity.
Qed.

Lemma chat_sends_seed_then_transcript_witness :
  exists o w',
    POST canned (Returns orders_body) later = (o, w')
    /\ outbound w' = outbound later ++ [CallChat (chat_request orders_body)]
    /\ resource_line (Some "orders") = "Specifically for resource: orders"
    /\ o = Returns (mkResponse 200 (Answer "Open Authentication > Policies."))
    /\ (POST canned (Returns orders_body) start).1 = o.
Proof.
  destruct (chat_sends_seed_then_transcript canned orders_body later)
    as (o & w' & Hrun & Hout & _ & _ & _ & Hname & _ & _ & Hreply & Hstate).
  exists o, w'. split; [exact Hrun|]. split; [exact Hout|].
  split; [apply (Hname "orders" eq_refl); discriminate|].
  split; [exact (Hreply _ _ eq_refl)|].
  apply Hstate.
Defined.

(** The request of the session on [orders]: three messages, the first of
    which names the relation. *)
Example orders_request :
  map role (messages (chat_request orders_body)) = [system; assistant; user]
  /\ map content (drop 1 (messages (chat_request orders_body)))
     = [msg_content opening; msg_content question].
Proof. split; reflexivity. Qed.

(** A failure of the capability is answered with status 500. *)
Lemma chat_failure_is_reported openai b w e :
  openai (chat_request b) = Throws e ->
  (POST openai (Returns b) w).1
  = Returns (mkResponse 500 (Failure "Failed to process chat message")).
Proof. intros H. rewrite chat_POST_run. cbv zeta. by rewrite H. Qed.

(** ** Further properties of the chat route *)



(** X11.  The system message depends on the resource name only through the
    line that names it: an empty resource name gives the request that no
    resource name gives, and whatever the resource names, requests for two
    different features have different system messages. *)
Theorem seed_tells_features_apart msgs f1 f2 r1 r2 :
  chat_request (mkChatBody msgs f1 (Some EmptyString)) = chat_request (mkChatBody msgs f1 None)
  /\ (f1 <> f2 -> seed f1 r1 <> seed f2 r2).
Proof.
  split; [reflexivity|].
  intros Hne [= Heq]. apply Hne.
  destruct f1, f2; try reflexivity; exfalso;
    unfold systemPrompt, securityDocs in Heq; simpl in Heq; discriminate Heq.
Qed.

End SecurityChatFacts.

(** * Properties of the login route *)

Module LoginFacts.
Import Login.

Lemma login_POST_run NODE_ENV json w :
  json <> JNull ->
  POST NODE_ENV (Returns json) w =
  if truthy (property "projectUrl" json) && truthy (property "serviceKey" json) then
    (Returns (mkResponse 200 (Message "Login successful")
                (<["serviceKey" := session_cookie NODE_ENV
                                     (default JNull (property "serviceKey" json))]>
                 (<["projectUrl" := session_cookie NODE_ENV
                                      (default JNull (property "projectUrl" json))]> ∅))), w)
  else (Returns (mkResponse 400 (Failure "Missing credentials") ∅), w).
Proof.
  intros Hjson. unfold POST, try_catch, bind, await, destructure.
  destruct json; try congruence; simpl; try reflexivity.
  destruct (truthy _), (truthy _); reflexivity.
Qed.

(** C10, as stated, fails.  In the body [null] both values are missing, and
    the answer is not 400 but 500: [null] cannot be destructured, and the
    catch block answers.  Hence it is not true that every body in which a
    value is missing is answered with status 400. *)
Lemma login_null_body_answers_500 :
  truthy (property "projectUrl" JNull) = false
  /\ truthy (property "serviceKey" JNull) = false
  /\ (POST None (Returns JNull) start).1
     = Returns (mkResponse 500 (Failure "Login failed") ∅)
  /\ ~ (forall NODE_ENV json w,
          truthy (property "projectUrl" json) = false
          \/ truthy (property "serviceKey" json) = false ->
          (POST NODE_ENV (Returns json) w).1
          = Returns (mkResponse 400 (Failure "Missing credentials") ∅)).
Proof.
  split; [reflexivity|]. split; [reflexivity|]. split; [reflexivity|].
  intros H. specialize (H None JNull start (or_introl eq_refl)).
  vm_compute in H. discriminate H.
Qed.

(** C10, amended.  A body whose [projectUrl] and [serviceKey] members are
    non-empty strings is answered with status 200 and the two session
    cookies holding those strings, and the world is untouched: no call is
    made to the platform, so the answer is the same whatever the platform
    would say of the credentials.  A body that can be destructured (any
    parsed value but [null]) and in which either member is missing (or
    otherwise falsy) is answered with status 400 and no cookie, the world
    untouched as well.  A body that is [null], or that is not JSON, is
    answered with status 500 and no cookie; no call is made and the
    exception is written on the console. *)
Theorem login_stores_unchecked_credentials NODE_ENV w :
  (forall members url key,
     member "projectUrl" members = Some (JString url) ->
     member "serviceKey" members = Some (JString key) ->
     url <> EmptyString -> key <> EmptyString ->
     POST NODE_ENV (Returns (JObject members)) w
     = (Returns (mkResponse 200 (Message "Login successful")
                   (<["serviceKey" := session_cookie NODE_ENV (JString key)]>
                    (<["projectUrl" := session_cookie NODE_ENV (JString url)]> ∅))), w))
  /\ (forall json,
        json <> JNull ->
        truthy (property "projectUrl" json) = false
        \/ truthy (property "serviceKey" json) = false ->
        POST NODE_ENV (Returns json) w
        = (Returns (mkResponse 400 (Failure "Missing credentials") ∅), w))
  /\ POST NODE_ENV (Returns JNull) w
     = (Returns (mkResponse 500 (Failure "Login failed") ∅),
        noted "Login error:"
              (Some (TypeError "Cannot destructure property 'projectUrl' of null")) w)
  /\ (forall e,
        POST NODE_ENV (Throws e) w
        = (Returns (mkResponse 500 (Failure "Login failed") ∅),
           noted "Login error:" (Some e) w)).
Proof.
  split; [|split; [|split]].
  - intros members url key Hurl Hkey Hu Hk.
    rewrite login_POST_run by discriminate. simpl. rewrite Hurl, Hkey. simpl.
    apply String.eqb_neq in Hu, Hk. by rewrite Hu, Hk.
  - intros json Hjson H. rewrite login_POST_run by exact Hjson.
    by destruct H as [-> | ->]; [|rewrite andb_false_r].
  - reflexivity.
  - by intros e.
Qed.

Lemma login_stores_unchecked_credentials_witness :
  (exists cookies,
     POST None (Returns (credentials "https://demo.supabase.co" "eyJ-service-role")) start
     = (Returns (mkResponse 200 (Message "Login successful") cookies), start)
     /\ value <$> cookies !! "serviceKey" = Some (JString "eyJ-service-role"))
  /\ POST None (Returns (credentials "https://demo.supabase.co" EmptyString)) start
     = (Returns (mkResponse 400 (Failure "Missing credentials") ∅), start).
Proof.
  destruct (login_stores_unchecked_credentials None start) as (Hok & Hmissing & _).
  split.
  - eexists. split.
    + apply Hok; [reflexivity | reflexivity | discriminate | discriminate].
    + reflexivity.
  - apply Hmissing; [discriminate | by right].
Defined.

(** A login that succeeded says nothing of the credentials: the session it
    opened is refused by the platform at the first run. *)
Example login_then_refused_run ToString :
  let login := POST None (Returns (credentials "https://demo.supabase.co" "revoked")) start in
  http_status (answered login.1) = 200
  /\ (RunChecks.GET RunChecks.key_refused (sent_back ToString (answered login.1)) login.2).1
     = Returns (RunChecks.mkResponse 500
                  (RunChecks.Failure "Invalid API key" (Some RunChecks.invalid_key))).
Proof. split; reflexivity. Qed.

(** A body that is [null], or not JSON at all, is answered with status 500. *)
Lemma login_undestructurable_body NODE_ENV w :
  (POST NODE_ENV (Returns JNull) w).1 = Returns (mkResponse 500 (Failure "Login failed") ∅)
  /\ forall e,
       (POST NODE_ENV (Throws e) w).1 = Returns (mkResponse 500 (Failure "Login failed") ∅).
Proof. split; [reflexivity | by intros e]. Qed.

(** ** Further properties of the login route *)

Lemma login_POST_throws NODE_ENV e w :
  POST NODE_ENV (Throws e) w
  = (Returns (mkResponse 500 (Failure "Login failed") ∅), noted "Login error:" (Some e) w).
Proof. reflexivity. Qed.

Lemma login_POST_null NODE_ENV w :
  exists e,
    POST NODE_ENV (Returns JNull) w
    = (Returns (mkResponse 500 (Failure "Login failed") ∅), noted "Login error:" (Some e) w).
Proof. by eexists. Qed.

(** X12.  The login handler never throws and makes no outbound call.  It
    answers 200, 400 or 500.  With 200 it sets exactly the two cookies
    [projectUrl] and [serviceKey]; each is httpOnly, has sameSite [lax] and
    path [/], is secure exactly when NODE_ENV is [production], and holds a
    truthy value.  With 400 or 500 it sets no cookie. *)
Theorem login_cookies_and_answers NODE_ENV parsed w :
  exists resp,
    (POST NODE_ENV parsed w).1 = Returns resp
    /\ outbound (POST NODE_ENV parsed w).2 = outbound w
    /\ security_logs (POST NODE_ENV parsed w).2 = security_logs w
    /\ ((http_status resp = 200
         /\ body resp = Message "Login successful"
         /\ dom (cookies resp) = {[ "projectUrl"; "serviceKey" ]}
         /\ map_Forall (fun _ c =>
                          httpOnly c = true /\ sameSite c = "lax" /\ path c = "/"
                          /\ secure c = bool_decide (NODE_ENV = Some "production")
                          /\ truthy (Some (value c)) = true)
                       (cookies resp))
        \/ (resp = mkResponse 400 (Failure "Missing credentials") ∅)
        \/ (resp = mkResponse 500 (Failure "Login failed") ∅)).
Proof.
  destruct parsed as [json|e].
  2:{ rewrite login_POST_throws. eexists. split; [reflexivity|].
      split; [reflexivity|]. split; [reflexivity|]. by right; right. }
  assert (json = JNull \/ json <> JNull) as [->|Hjson]
    by (destruct json; [by left | by right..]).
  { destruct (login_POST_null NODE_ENV w) as [e ->]. eexists. split; [reflexivity|].
    split; [reflexivity|]. split; [reflexivity|]. by right; right. }
  rewrite login_POST_run by exact Hjson.
  destruct (truthy (property "projectUrl" json)) eqn:Hu;
    destruct (truthy (property "serviceKey" json)) eqn:Hk; simpl;
    eexists; (split; [reflexivity|]); (split; [reflexivity|]); (split; [reflexivity|]);
    try (right; left; reflexivity).
  left. split; [reflexivity|]. split; [reflexivity|]. simpl. split.
  - rewrite !dom_insert_L, dom_empty_L. set_solver.
  - destruct (property "projectUrl" json) as [u|]; [|discriminate Hu].
    destruct (property "serviceKey" json) as [k|]; [|discriminate Hk].
    apply map_Forall_insert_2; [by repeat split|].
    apply map_Forall_insert_2; [by repeat split|].
    apply map_Forall_empty.
Qed.

(** X13.  Login and run-checks fit together.  After a login answered 200
    -- a body whose two members are truthy, strings or not -- the request
    that returns the cookies carries exactly the two cookies, each the text
    of the member that was posted (a string as it is), and the run builds
    its client from these two texts.  When neither text is empty, as is the
    case for strings, the request passes the credential guard of the run;
    the run then rejects if [createClient] throws on the two texts, and
    otherwise runs the checks with the client built from them.  After a
    login answered 400 the request carries no cookie of the handler's, and
    the run answers 401. *)
Theorem login_opens_the_session_of_the_run ToString NODE_ENV platform json u k w :
  json <> JNull ->
  property "projectUrl" json = Some u -> property "serviceKey" json = Some k ->
  truthy (Some u) = true -> truthy (Some k) = true ->
  let login := POST NODE_ENV (Returns json) w in
  let req := sent_back ToString (answered login.1) in
  let url := cookie_text ToString u in
  let key := cookie_text ToString k in
  http_status (answered login.1) = 200
  /\ RunChecks.cookies req = <["serviceKey" := key]> (<["projectUrl" := url]> ∅)
  /\ RunChecks.client_of platform req = RunChecks.mkClient url key (platform url key)
  /\ (forall s, u = JString s -> url = s /\ url <> EmptyString)
  /\ (forall s, k = JString s -> key = s /\ key <> EmptyString)
  /\ (url <> EmptyString -> key <> EmptyString ->
      RunChecks.authenticated req = true
      /\ forall w1,
           RunChecks.GET platform req w1
           = match client_error (platform url key) with
             | Some e => (Throws e, w1)
             | None =>
                 try_catch
                   (RunChecks.run_checks (RunChecks.mkClient url key (platform url key)))
                   RunChecks.on_error w1
             end)
  /\ (forall json' w0,
        (POST NODE_ENV (Returns json') w0).1
        = Returns (mkResponse 400 (Failure "Missing credentials") ∅) ->
        forall w1,
          RunChecks.GET platform
            (sent_back ToString (answered (POST NODE_ENV (Returns json') w0).1)) w1
          = (Returns (RunChecks.mkResponse 401
                        (RunChecks.Failure "Not authenticated" None)), w1)).
Proof.
  intros Hjson Hpu Hpk Htu Htk login req url key.
  assert (Hlogin : answered login.1
                   = mkResponse 200 (Message "Login successful")
                       (<["serviceKey" := session_cookie NODE_ENV k]>
                        (<["projectUrl" := session_cookie NODE_ENV u]> ∅))).
  { unfold login. rewrite login_POST_run by exact Hjson.
    rewrite Hpu, Hpk, Htu, Htk. reflexivity. }
  assert (Hcookies : RunChecks.cookies req
                     = <["serviceKey" := key]> (<["projectUrl" := url]> ∅)).
  { unfold req, sent_back. rewrite Hlogin. simpl.
    by rewrite !fmap_insert, fmap_empty. }
  assert (Hcu : RunChecks.cookies req !! "projectUrl" = Some url).
  { rewrite Hcookies, lookup_insert_ne by discriminate. by rewrite lookup_insert_eq. }
  assert (Hck : RunChecks.cookies req !! "serviceKey" = Some key).
  { by rewrite Hcookies, lookup_insert_eq. }
  assert (Hclient : RunChecks.client_of platform req
                    = RunChecks.mkClient url key (platform url key)).
  { unfold RunChecks.client_of. by rewrite Hcu, Hck. }
  split; [by rewrite Hlogin|]. split; [exact Hcookies|]. split; [exact Hclient|].
  split; [|split; [|split]].
  - intros s ->. split; [reflexivity|]. simpl in Htu. unfold url. simpl.
    intros ->. discriminate Htu.
  - intros s ->. split; [reflexivity|]. simpl in Htk. unfold key. simpl.
    intros ->. discriminate Htk.
  - intros Hu Hk.
    assert (Hauth : RunChecks.authenticated req = true).
    { unfold RunChecks.authenticated. rewrite Hcu, Hck. simpl.
      apply String.eqb_neq in Hu, Hk. by rewrite Hu, Hk. }
    split; [exact Hauth|]. intros w1.
    rewrite (RunChecksFacts.GET_authenticated _ _ _ Hauth), Hclient. reflexivity.
  - intros json' w0 -> w1. apply RunChecksFacts.GET_unauthenticated.
    unfold RunChecks.authenticated, sent_back. simpl.
    by rewrite fmap_empty, !lookup_empty.
Qed.

Lemma login_opens_the_session_of_the_run_witness :
  let login := POST None (Returns (credentials "demo" "eyJ-service-role")) start in
  let req := sent_back (fun _ => "[object Object]") (answered login.1) in
  RunChecks.authenticated req = true
  /\ RunChecks.GET RunChecks.needs_url req start = (Throws RunChecks.invalid_url, start).
Proof.
  intros login req.
  destruct (login_opens_the_session_of_the_run (fun _ => "[object Object]") None
              RunChecks.needs_url (credentials "demo" "eyJ-service-role")
              (JString "demo") (JString "eyJ-service-role") start
              ltac:(discriminate) eq_refl eq_refl eq_refl eq_refl)
    as (_ & _ & _ & _ & _ & Hrun & _).
  destruct (Hrun ltac:(discriminate) ltac:(discriminate)) as [Hauth HGET].
  split; [exact Hauth | exact (HGET start)].
Defined.

End LoginFacts.

(** * Properties of the users route and of the admin data route *)

Module DataRoutesFacts.
Import Login DataRoutes.

Lemma users_GET_run env made net s :
  users_GET env made net s =
  match made with
  | Throws e => (Throws e, s)
  | Returns _ =>
      (Returns match net (users_request env) with
               | Returns (mkHttpResponse _ (Returns users)) => mkResponse 200 (Users users)
               | _ => mkResponse 500 (Failure "Failed to fetch users")
               end,
       sent (users_request env) s)
  end.
Proof.
  unfold users_GET, createRouteHandlerClient, Eff.try_catch, fetch, Eff.bind, Eff.modify,
    Eff.await.
  destruct made as [supabase|e]; [|reflexivity]. simpl.
  by destruct (net (users_request env)) as [[status [users|e]]|e].
Qed.

(** X14.  The users route rejects exactly when [createRouteHandlerClient],
    called before the [try] block, throws; it then sends nothing.  With the
    client built it never throws and sends exactly one request, to
    [/rest/v1/users] of the configured URL, with the service-role key as
    bearer token and as [apikey].  It does not look at the status of the
    answer: whenever the answer's body parses, the route answers 200 with
    that body as [users], even if the upstream status is an error; it
    answers 500 only when the fetch or the parsing throws, and writes
    nothing on the console. *)
Theorem users_route_ignores_upstream_status env made net s :
  match made with
  | Throws e => users_GET env made net s = (Throws e, s)
  | Returns _ =>
      exists resp,
        users_GET env made net s = (Returns resp, sent (users_request env) s)
        /\ net_console (sent (users_request env) s) = net_console s
        /\ header "apikey" (headers (users_request env)) = SUPABASE_SERVICE_ROLE_KEY env
        /\ (forall status users,
              net (users_request env) = Returns (mkHttpResponse status (Returns users)) ->
              resp = mkResponse 200 (Users users))
        /\ ((exists e, net (users_request env) = Throws e)
            \/ (exists status e,
                  net (users_request env) = Returns (mkHttpResponse status (Throws e))) ->
            resp = mkResponse 500 (Failure "Failed to fetch users"))
  end.
Proof.
  rewrite users_GET_run. destruct made as [supabase|e]; [|reflexivity].
  eexists. split; [reflexivity|].
  split; [reflexivity|]. split; [reflexivity|]. split.
  - by intros status users ->.
  - by intros [(e & ->)|(status & e & ->)].
Qed.

(** The users route in use: an upstream refusal is answered 200, and a
    deployment without the public URL answers nothing. *)
Example users_route_in_use :
  (users_GET configured (built (Returns None)) refusing quiet).1
  = Returns (mkResponse 200 (Users (JObject [("message", JString "Invalid API key")])))
  /\ users_GET configured (Throws not_configured) refusing quiet
     = (Throws not_configured, quiet).
Proof. split; reflexivity. Qed.

Lemma admin_GET_run env made net s :
  admin_GET env made net s =
  let failed e s' :=
    (Returns (mkResponse 500 (Failure "Failed to fetch data")),
     complained "Admin data fetch error:" e s') in
  match made with
  | Throws e => (Throws e, s)
  | Returns supabase =>
  match getSession supabase with
  | Throws e => failed e s
  | Returns None => (Returns (mkResponse 401 (Failure "Not authenticated")), s)
  | Returns (Some _) =>
      let s1 := sent (auth_users_request env) s in
      match net (auth_users_request env) with
      | Throws e => failed e s1
      | Returns usersResponse =>
          let s2 := sent (projects_request env) s1 in
          match net (projects_request env) with
          | Throws e => failed e s2
          | Returns projectsResponse =>
              match json usersResponse, json projectsResponse with
              | Throws e, _ => failed e s2
              | Returns _, Throws e => failed e s2
              | Returns users, Returns projects =>
                  (Returns (mkResponse 200 (UsersAndProjects users projects)), s2)
              end
          end
      end
  end
  end.
Proof.
  unfold admin_GET, createRouteHandlerClient, Eff.try_catch, fetch, console_error,
    Eff.bind, Eff.modify, Eff.await.
  destruct made as [[getSession]|e]; [|reflexivity]. simpl.
  destruct getSession as [[session|]|e]; try reflexivity. simpl.
  destruct (net (auth_users_request env)) as [usersResponse|e]; [|reflexivity].
  destruct (net (projects_request env)) as [projectsResponse|e]; [|reflexivity].
  destruct (json usersResponse), (json projectsResponse); reflexivity.
Qed.

(** X15.  Without a session the admin data route sends nothing: it answers
    401 and leaves its state untouched; and when reading the session
    throws, it answers 500, still without any request. *)
Theorem admin_route_needs_a_session env getSession net s :
  getSession = Returns None \/ (exists e, getSession = Throws e) ->
  exists resp,
    (admin_GET env (built getSession) net s).1 = Returns resp
    /\ fetched (admin_GET env (built getSession) net s).2 = fetched s
    /\ (getSession = Returns None ->
        resp = mkResponse 401 (Failure "Not authenticated")
        /\ (admin_GET env (built getSession) net s).2 = s)
    /\ ((exists e, getSession = Throws e) ->
        resp = mkResponse 500 (Failure "Failed to fetch data")).
Proof.
  rewrite admin_GET_run. cbv zeta. unfold built. simpl.
  intros [->|(e & ->)]; eexists; (split; [reflexivity|]); (split; [reflexivity|]).
  - split; [done | by intros (e & [=])].
  - split; [intros [=] | done].
Qed.

Lemma admin_route_needs_a_session_witness :
  admin_GET configured (built (Returns None)) refusing quiet
  = (Returns (mkResponse 401 (Failure "Not authenticated")), quiet).
Proof.
  destruct (admin_route_needs_a_session configured (Returns None) refusing quiet
              (or_introl eq_refl)) as (resp & Hresp & _ & H401 & _).
  destruct (H401 eq_refl) as [-> Hs].
  by rewrite (surjective_pairing (admin_GET _ _ _ _)), Hresp, Hs.
Defined.

(** X16.  The admin data route rejects exactly when
    [createRouteHandlerClient] throws, and then sends nothing.  With the
    client built and a session it never throws and sends the request for
    the users first, then, unless that fetch threw, the request for the
    projects; both are sent before either body is read.  It answers 200
    with the two parsed bodies exactly when both fetches return and both
    bodies parse, whatever the two statuses, and then writes nothing on
    the console; in every other case it answers 500 with [Failed to fetch
    data] and writes the error on the console. *)
Theorem admin_route_fetches_both_then_reads env session net s :
  (forall e, admin_GET env (Throws e) net s = (Throws e, s))
  /\ exists resp,
       (admin_GET env (built (Returns (Some session))) net s).1 = Returns resp
       /\ fetched (admin_GET env (built (Returns (Some session))) net s).2
          = fetched s ++ auth_users_request env
                         :: match net (auth_users_request env) with
                            | Returns _ => [projects_request env]
                            | Throws _ => []
                            end
       /\ resp = match net (auth_users_request env), net (projects_request env) with
                 | Returns (mkHttpResponse _ (Returns users)),
                   Returns (mkHttpResponse _ (Returns projects)) =>
                     mkResponse 200 (UsersAndProjects users projects)
                 | _, _ => mkResponse 500 (Failure "Failed to fetch data")
                 end
       /\ (http_status resp = 200 ->
           net_console (admin_GET env (built (Returns (Some session))) net s).2
           = net_console s)
       /\ (http_status resp = 500 ->
           exists e,
             net_console (admin_GET env (built (Returns (Some session))) net s).2
             = net_console s ++ [mkConsoleLine "Admin data fetch error:" (Some e)]).
Proof.
  split; [by intros e|].
  rewrite admin_GET_run. cbv zeta. unfold built. simpl.
  destruct (net (auth_users_request env)) as [[su ju]|e] eqn:Hu.
  2:{ eexists. split; [reflexivity|]. split; [reflexivity|].
      split; [reflexivity|]. split; [discriminate | by eexists]. }
  destruct (net (projects_request env)) as [[sp jp]|e] eqn:Hp.
  2:{ eexists. split; [reflexivity|]. split; [simpl; by rewrite <- app_assoc|].
      split; [by destruct ju|]. split; [discriminate | by eexists]. }
  destruct ju as [users|e], jp as [projects|e']; simpl;
    eexists; (split; [reflexivity|]); (split; [by rewrite <- app_assoc|]);
    (split; [reflexivity|]); simpl;
    (split; [try discriminate; reflexivity | try discriminate; by eexists]).
Qed.

End DataRoutesFacts.

(** * Properties of the strings of the pages *)

Module JsStringFacts.
Import JsString.

Example trim_spaces : trim "  https://x.co
" = "https://x.co".
Proof. reflexivity. Qed.

Example trim_blank : trim "   " = EmptyString.
Proof. reflexivity. Qed.

(** A no-break space before and an ideographic space after are removed. *)
Example trim_wide_spaces :
  trim (String.string_of_list_ascii (bytes [194; 160; 97; 32; 98; 227; 128; 128])) = "a b".
Proof. reflexivity. Qed.

Lemma strip_Some p l l' : strip p l = Some l' -> l = p ++ l'.
Proof.
  revert l. induction p as [|a p IH]; intros [|b l]; simpl; try congruence.
  destruct (Ascii.eqb a b) eqn:Hab; [|discriminate].
  apply Ascii.eqb_eq in Hab as ->. intros H. by rewrite (IH _ H).
Qed.

Lemma strip_any_Some ps l l' :
  strip_any ps l = Some l' -> exists p, p ∈ ps /\ l = p ++ l'.
Proof.
  induction ps as [|p ps IH]; simpl; [discriminate|].
  destruct (strip p l) as [l0|] eqn:Hp.
  - intros [= <-]. exists p. split; [left | by apply strip_Some].
  - intros H. destruct (IH H) as (q & Hq & ->). exists q. split; [by right | done].
Qed.

(** Stripping removes bytes of white space only. *)
Lemma strip_all_keeps fuel ps l c :
  Forall (fun p => c ∉ p) ps -> c ∈ l -> c ∈ strip_all fuel ps l.
Proof.
  intros Hps. revert l. induction fuel as [|n IH]; intros l Hc; simpl; [exact Hc|].
  destruct (strip_any ps l) as [l'|] eqn:Hs; [|exact Hc].
  apply strip_any_Some in Hs as (p & Hp & ->). apply IH.
  apply elem_of_app in Hc as [Hc|Hc]; [|exact Hc].
  rewrite Forall_forall in Hps. by destruct (Hps p Hp).
Qed.

(** With fuel for every byte, nothing is left to strip. *)
Lemma strip_all_done fuel ps l :
  Forall (fun p => p <> []) ps -> length l <= fuel ->
  strip_any ps (strip_all fuel ps l) = None.
Proof.
  intros Hps. revert l. induction fuel as [|n IH]; intros l Hlen; simpl.
  - destruct l; [|simpl in Hlen; lia].
    destruct (strip_any ps []) as [l'|] eqn:Hs; [|reflexivity].
    apply strip_any_Some in Hs as (p & Hp & Heq).
    rewrite Forall_forall in Hps. destruct (Hps p Hp).
    symmetry in Heq. by apply app_eq_nil in Heq as [-> _].
  - destruct (strip_any ps l) as [l'|] eqn:Hs; [|exact Hs].
    apply IH. apply strip_any_Some in Hs as (p & Hp & ->).
    rewrite Forall_forall in Hps. specialize (Hps p Hp).
    rewrite length_app in Hlen. destruct p; [done|]. simpl in Hlen. lia.
Qed.

Lemma elem_of_rev (c : Ascii.ascii) l : c ∈ rev l <-> c ∈ l.
Proof. rewrite !list_elem_of_In. symmetry. apply in_rev. Qed.

Lemma trim_keeps_inert s c :
  inert c -> c ∈ String.list_ascii_of_string s -> c ∈ String.list_ascii_of_string (trim s).
Proof.
  intros Hc Hin. unfold trim, trimEnd_bytes, trimStart_bytes.
  rewrite String.list_ascii_of_string_of_list_ascii. apply elem_of_rev.
  apply strip_all_keeps.
  - apply Forall_fmap. eapply Forall_impl; [exact Hc|]. simpl.
    intros p Hp. by rewrite elem_of_rev.
  - apply elem_of_rev. by apply strip_all_keeps.
Qed.

Lemma startsWith_bytes s p c :
  startsWith s p = true -> c ∈ String.list_ascii_of_string p -> c ∈ String.list_ascii_of_string s.
Proof.
  unfold startsWith. revert s. induction p as [|a p IH]; intros s; simpl.
  - intros _ H. by apply elem_of_nil in H.
  - destruct s as [|b s]; simpl; [discriminate|].
    destruct (Ascii.ascii_dec a b) as [->|]; [|discriminate].
    intros Hp Hc. apply elem_of_cons in Hc as [->|Hc]; [left | right; by apply IH].
Qed.

(** A string with an inert byte does not trim to the empty string. *)
Lemma trim_not_empty s c :
  inert c -> c ∈ String.list_ascii_of_string s -> trim s <> EmptyString.
Proof.
  intros Hc Hin Hempty. pose proof (trim_keeps_inert s c Hc Hin) as H.
  rewrite Hempty in H. by apply elem_of_nil in H.
Qed.

Lemma inert_h : inert (Ascii.ascii_of_nat 104).
Proof.
  unfold inert, white_space, bytes. simpl.
  repeat constructor; intros H; apply list_elem_of_In in H; simpl in H;
    repeat (destruct H as [H|H]; [discriminate H|]); exact H.
Qed.

Lemma inert_e : inert (Ascii.ascii_of_nat 101).
Proof.
  unfold inert, white_space, bytes. simpl.
  repeat constructor; intros H; apply list_elem_of_In in H; simpl in H;
    repeat (destruct H as [H|H]; [discriminate H|]); exact H.
Qed.

End JsStringFacts.

(** * Properties of the login page *)

Module LoginPageFacts.
Import Login DataRoutes JsString LoginPage.

Lemma handleSubmit_rejects_url ToString server s :
  startsWith (projectUrl s) "https://" = false ->
  handleSubmit ToString server s
  = (Returns tt,
     mkState (projectUrl s) (serviceKey s) "Project URL must start with https://"
             (posted s) (pushed s)).
Proof. intros H. unfold handleSubmit. by rewrite H. Qed.

Lemma handleSubmit_rejects_key ToString server s :
  startsWith (projectUrl s) "https://" = true ->
  startsWith (serviceKey s) "eyJ" = false ->
  handleSubmit ToString server s
  = (Returns tt,
     mkState (projectUrl s) (serviceKey s) "Invalid service key format"
             (posted s) (pushed s)).
Proof. intros Hu Hk. unfold handleSubmit. by rewrite Hu, Hk. Qed.

Lemma handleSubmit_posts ToString server s :
  startsWith (projectUrl s) "https://" = true ->
  startsWith (serviceKey s) "eyJ" = true ->
  handleSubmit ToString server s
  = let shown text :=
      (Returns tt,
       mkState (projectUrl s) (serviceKey s) text
               (posted s ++ [credentials_body s]) (pushed s)) in
    match server (credentials_body s) with
    | Throws e => shown (message e)
    | Returns response =>
        if ok response then
          (Returns tt,
           mkState (projectUrl s) (serviceKey s) EmptyString
                   (posted s ++ [credentials_body s]) (pushed s ++ ["/dashboard"]))
        else
          match json response with
          | Throws e => shown (message e)
          | Returns parsed => shown (message (login_error ToString parsed))
          end
    end.
Proof.
  intros Hu Hk. unfold handleSubmit. rewrite Hu, Hk. simpl.
  unfold Eff.try_catch, Eff.bind, post_login, Eff.modify, Eff.await, setError,
    router_push, Eff.ret, Eff.throw. simpl. fold (credentials_body s).
  destruct (server (credentials_body s)) as [response|e]; [|reflexivity].
  destruct (ok response); [reflexivity|]. simpl.
  by destruct (json response).
Qed.

(** X17.  Submitting the form never throws and never changes the two
    fields.  Nothing is posted unless the URL starts with [https://] and
    the key with [eyJ]; the URL is checked first, and each failed check
    shows its own message.  When both checks pass exactly one body is
    posted, carrying the two fields trimmed. *)
Theorem login_page_checks_before_posting ToString server s :
  let s' := (handleSubmit ToString server s).2 in
  (handleSubmit ToString server s).1 = Returns tt
  /\ projectUrl s' = projectUrl s /\ serviceKey s' = serviceKey s
  /\ posted s'
     = posted s ++ (if startsWith (projectUrl s) "https://"
                       && startsWith (serviceKey s) "eyJ"
                    then [credentials_body s] else [])
  /\ (if startsWith (projectUrl s) "https://" then
        if startsWith (serviceKey s) "eyJ" then True
        else error s' = "Invalid service key format" /\ pushed s' = pushed s
      else error s' = "Project URL must start with https://" /\ pushed s' = pushed s).
Proof.
  destruct (startsWith (projectUrl s) "https://") eqn:Hu.
  - destruct (startsWith (serviceKey s) "eyJ") eqn:Hk.
    + rewrite (handleSubmit_posts _ _ _ Hu Hk). cbv zeta.
      destruct (server (credentials_body s)) as [response|e]; [|by repeat split].
      destruct (ok response); [by repeat split|].
      by destruct (json response).
    + rewrite (handleSubmit_rejects_key _ _ _ Hu Hk). simpl.
      rewrite app_nil_r. by repeat split.
  - rewrite (handleSubmit_rejects_url _ _ _ Hu). simpl.
    rewrite app_nil_r. by repeat split.
Qed.

Lemma trimmed_https_not_empty u :
  startsWith u "https://" = true -> trim u <> EmptyString.
Proof.
  intros H. apply (JsStringFacts.trim_not_empty _ _ JsStringFacts.inert_h).
  apply (JsStringFacts.startsWith_bytes _ _ _ H). simpl. left.
Qed.

Lemma trimmed_eyJ_not_empty k :
  startsWith k "eyJ" = true -> trim k <> EmptyString.
Proof.
  intros H. apply (JsStringFacts.trim_not_empty _ _ JsStringFacts.inert_e).
  apply (JsStringFacts.startsWith_bytes _ _ _ H). simpl. left.
Qed.

(** X18.  The page and the login route fit together.  Whenever both checks
    of the page pass, the route of this application answers the posted body
    with 200: the page shows no error and pushes [/dashboard], and the two
    cookies the route sets hold the two fields trimmed, neither of them
    empty.  The route's 400 cannot be reached from the page. *)
Theorem login_page_passes_the_route ToString NODE_ENV w s :
  startsWith (projectUrl s) "https://" = true ->
  startsWith (serviceKey s) "eyJ" = true ->
  handleSubmit ToString (login_route NODE_ENV w) s
  = (Returns tt,
     mkState (projectUrl s) (serviceKey s) EmptyString
             (posted s ++ [credentials_body s]) (pushed s ++ ["/dashboard"]))
  /\ cookies_set NODE_ENV w (credentials_body s)
     = <["serviceKey" := session_cookie NODE_ENV (JString (trim (serviceKey s)))]>
        (<["projectUrl" := session_cookie NODE_ENV (JString (trim (projectUrl s)))]> ∅)
  /\ trim (projectUrl s) <> EmptyString /\ trim (serviceKey s) <> EmptyString.
Proof.
  intros Hu Hk.
  pose proof (trimmed_https_not_empty _ Hu) as Hnu.
  pose proof (trimmed_eyJ_not_empty _ Hk) as Hnk.
  assert (Hroute : Login.POST NODE_ENV (Returns (credentials_body s)) w
                   = (Returns (Login.mkResponse 200 (Message "Login successful")
                        (<["serviceKey" := session_cookie NODE_ENV
                                             (JString (trim (serviceKey s)))]>
                         (<["projectUrl" := session_cookie NODE_ENV
                                              (JString (trim (projectUrl s)))]> ∅))), w)).
  { rewrite LoginFacts.login_POST_run by discriminate. simpl.
    apply String.eqb_neq in Hnu, Hnk. by rewrite Hnu, Hnk. }
  split; [|split; [|by split]].
  - rewrite (handleSubmit_posts _ _ _ Hu Hk). cbv zeta.
    unfold login_route. by rewrite Hroute.
  - unfold cookies_set. by rewrite Hroute.
Qed.

Lemma login_page_passes_the_route_witness :
  handleSubmit (fun _ => EmptyString) (login_route None start)
    (typed " https://demo.supabase.co" "eyJ-key")
  = (Returns tt,
     mkState " https://demo.supabase.co" "eyJ-key"
       "Project URL must start with https://" [] [])
  /\ (handleSubmit (fun _ => EmptyString) (login_route None start)
        (typed "https://demo.supabase.co  " "eyJ-key")).2
     = mkState "https://demo.supabase.co  " "eyJ-key" EmptyString
         [JObject [("projectUrl", JString "https://demo.supabase.co");
                   ("serviceKey", JString "eyJ-key")]]
         ["/dashboard"].
Proof.
  split; [reflexivity|].
  destruct (login_page_passes_the_route (fun _ => EmptyString) None start
              (typed "https://demo.supabase.co  " "eyJ-key") eq_refl eq_refl)
    as [Hrun _].
  by rewrite Hrun.
Defined.

(** X19.  When both checks pass and the exchange fails, the page stays
    where it is.  A fetch that throws shows the exception's message.  An
    answer that is not ok and whose body is not JSON shows the message of
    the parser's exception; one whose body is [null] shows the message of
    the TypeError of reading [message] of [null]; one whose body is any
    other value shows its [message] member when that is a non-empty string,
    and [Login failed] when it has no truthy [message] member.  The error
    bodies of the login route, which carry their text in the member
    [error], are all shown as [Login failed]. *)
Theorem login_page_failure_texts ToString server s :
  startsWith (projectUrl s) "https://" = true ->
  startsWith (serviceKey s) "eyJ" = true ->
  let s' := (handleSubmit ToString server s).2 in
  (forall e, server (credentials_body s) = Throws e ->
     error s' = message e /\ pushed s' = pushed s)
  /\ (forall response e,
        server (credentials_body s) = Returns response ->
        ok response = false -> json response = Throws e ->
        error s' = message e /\ pushed s' = pushed s)
  /\ (forall response,
        server (credentials_body s) = Returns response ->
        ok response = false -> json response = Returns JNull ->
        error s' = "Cannot read properties of null (reading 'message')"
        /\ pushed s' = pushed s)
  /\ (forall response parsed text,
        server (credentials_body s) = Returns response ->
        ok response = false -> json response = Returns parsed ->
        property "message" parsed = Some (JString text) -> text <> EmptyString ->
        error s' = text /\ pushed s' = pushed s)
  /\ (forall response parsed,
        server (credentials_body s) = Returns response ->
        ok response = false -> json response = Returns parsed ->
        parsed <> JNull -> truthy (property "message" parsed) = false ->
        error s' = "Login failed" /\ pushed s' = pushed s)
  /\ (forall response text,
        server (credentials_body s) = Returns response ->
        ok response = false ->
        json response = Returns (answer_json (Login.Failure text)) ->
        error s' = "Login failed" /\ pushed s' = pushed s).
Proof.
  intros Hu Hk s'. unfold s'. rewrite (handleSubmit_posts _ _ _ Hu Hk). cbv zeta.
  split; [|split; [|split; [|split; [|split]]]].
  - by intros e ->.
  - by intros response e -> -> ->.
  - by intros response -> -> ->.
  - intros response parsed text -> -> -> Hm Ht. simpl.
    unfold login_error. destruct parsed; try discriminate Hm.
    rewrite Hm. simpl. apply String.eqb_neq in Ht. by rewrite Ht.
  - intros response parsed -> -> -> Hnull Hfalsy. simpl.
    unfold login_error. rewrite Hfalsy. by destruct parsed.
  - by intros response text -> -> ->.
Qed.

Lemma login_page_failure_texts_witness :
  error (handleSubmit (fun _ => EmptyString)
           (fun _ => Returns (mkHttpResponse 400
                                (Returns (answer_json (Login.Failure "Missing credentials")))))
           (typed "https://demo.supabase.co" "eyJ-key")).2
  = "Login failed"
  /\ error (handleSubmit (fun _ => EmptyString)
              (fun _ => Returns (mkHttpResponse 502 (Returns JNull)))
              (typed "https://demo.supabase.co" "eyJ-key")).2
     = "Cannot read properties of null (reading 'message')".
Proof.
  split.
  - destruct (login_page_failure_texts (fun _ => EmptyString)
                (fun _ => Returns (mkHttpResponse 400
                                     (Returns (answer_json (Login.Failure "Missing credentials")))))
                (typed "https://demo.supabase.co" "eyJ-key") eq_refl eq_refl)
      as (_ & _ & _ & _ & _ & H).
    exact (proj1 (H _ "Missing credentials" eq_refl eq_refl eq_refl)).
  - destruct (login_page_failure_texts (fun _ => EmptyString)
                (fun _ => Returns (mkHttpResponse 502 (Returns JNull)))
                (typed "https://demo.supabase.co" "eyJ-key") eq_refl eq_refl)
      as (_ & _ & H & _).
    exact (proj1 (H _ eq_refl eq_refl eq_refl)).
Defined.

End LoginPageFacts.

(** * Properties of the chat window *)

Module ChatWindowFacts.
Import JsString ChatWindow.

Lemma handleSendMessage_blank props sentAt receivedAt exchange s :
  trim (input s) = EmptyString ->
  handleSendMessage props sentAt receivedAt exchange s = (Returns tt, s).
Proof. intros H. unfold handleSendMessage. by rewrite H. Qed.

Lemma handleSendMessage_run props sentAt receivedAt exchange s :
  trim (input s) <> EmptyString ->
  handleSendMessage props sentAt receivedAt exchange s =
  match exchange (body_sent props s sentAt) with
  | Returns (Value answer) =>
      (Returns tt,
       mkState (messages s ++ [userMessage s sentAt; mkMessage assistant answer receivedAt])
               EmptyString false (posts s ++ [body_sent props s sentAt]) (console s))
  | Returns Null =>
      (Throws (TypeError "Cannot read properties of null (reading 'message')"),
       mkState (messages s ++ [userMessage s sentAt])
               EmptyString false (posts s ++ [body_sent props s sentAt]) (console s))
  | Throws e =>
      (Returns tt,
       mkState (messages s ++ [userMessage s sentAt])
               EmptyString false (posts s ++ [body_sent props s sentAt])
               (console s ++ [mkConsoleLine "Error sending message:" (Some e)]))
  end.
Proof.
  intros H. unfold handleSendMessage. apply String.eqb_neq in H. rewrite H.
  unfold Eff.try_finally, Eff.try_catch, Eff.bind, post_chat, append_answer,
    append_message, setInput, console_error, Eff.modify, Eff.await, setLoading. simpl.
  fold (userMessage s sentAt). fold (body_sent props s sentAt).
  destruct (exchange (body_sent props s sentAt)) as [[|answer]|e]; simpl;
    try reflexivity.
  unfold Eff.modify. simpl. by rewrite <- app_assoc.
Qed.

(** X20.  A press of Send never removes or changes a bubble.  When the
    input trims to the empty string nothing happens at all.  Otherwise the
    input is appended as it was typed, not trimmed, as a user bubble; the
    input field is emptied; and one body is posted, holding the
    conversation so far followed by that bubble, with the feature and the
    resource of the window.  When the fetch or the parsing throws, the
    exception is written on the console, no assistant bubble follows, the
    loading flag is off and the handler returns.  When the answer parses to
    a value, one assistant bubble follows, holding the value's [message]
    member (no content when it has none), nothing is written on the
    console and the loading flag is off.  When the answer parses to
    [null], reading [data.message] throws in the state updater, outside
    the [try] block: the TypeError is not caught, nothing is written on
    the console and no assistant bubble follows. *)
Theorem chat_turn_appends props sentAt receivedAt exchange s :
  let run := handleSendMessage props sentAt receivedAt exchange s in
  let s' := run.2 in
  if String.eqb (trim (input s)) EmptyString then run = (Returns tt, s)
  else
    input s' = EmptyString
    /\ posts s' = posts s ++ [body_sent props s sentAt]
    /\ match exchange (body_sent props s sentAt) with
       | Throws e =>
           run.1 = Returns tt /\ loading s' = false
           /\ messages s' = messages s ++ [mkMessage user (Some (input s)) sentAt]
           /\ console s' = console s ++ [mkConsoleLine "Error sending message:" (Some e)]
       | Returns (Value answer) =>
           run.1 = Returns tt /\ loading s' = false
           /\ messages s'
              = messages s ++ [mkMessage user (Some (input s)) sentAt;
                               mkMessage assistant answer receivedAt]
           /\ console s' = console s
       | Returns Null =>
           run.1 = Throws (TypeError "Cannot read properties of null (reading 'message')")
           /\ messages s' = messages s ++ [mkMessage user (Some (input s)) sentAt]
           /\ console s' = console s
       end.
Proof.
  destruct (String.eqb (trim (input s)) EmptyString) eqn:Hblank.
  - apply String.eqb_eq in Hblank. by rewrite (handleSendMessage_blank _ _ _ _ _ Hblank).
  - apply String.eqb_neq in Hblank. rewrite (handleSendMessage_run _ _ _ _ _ Hblank).
    by destruct (exchange (body_sent props s sentAt)) as [[|answer]|e].
Qed.

(** A turn whose answer is the JSON text [null]. *)
Example chat_turn_null_answer :
  let props := mkProps RLS (Some "orders") "How to enable RLS for orders" in
  let s := typing "Where is the button?" (opened props "10:00") in
  let run := handleSendMessage props "10:01" "10:02" (fun _ => Returns Null) s in
  run.1 = Throws (TypeError "Cannot read properties of null (reading 'message')")
  /\ console run.2 = [].
Proof. split; reflexivity. Qed.

Lemma parsed_body_sent props s sentAt ms :
  mapM on_the_wire (messages s) = Some ms ->
  parsed_body (body_sent props s sentAt)
  = Some (SecurityChat.mkChatBody
            (ms ++ [SecurityChat.mkMessage user (input s) sentAt])
            (feature props) (resourceName props)).
Proof.
  intros Hms. unfold parsed_body, body_sent. simpl.
  assert (mapM on_the_wire (messages s ++ [userMessage s sentAt])
          = Some (ms ++ [SecurityChat.mkMessage user (input s) sentAt])) as ->;
    [|reflexivity].
  apply mapM_Some. apply mapM_Some in Hms.
  apply Forall2_app; [exact Hms|]. by repeat constructor.
Qed.

(** X21.  The window and the chat route fit together.  Let every bubble of
    the conversation have a content, the input not be blank, and the
    exchange be the chat route of this application.  Then the route parses
    the posted body as the conversation followed by the user's text, the
    turn appends the user bubble and one assistant bubble, and nothing is
    written on the window's console.  When the capability answers a first
    choice the assistant bubble holds that choice's content; when the
    capability throws, the assistant bubble has no content: the failure is
    not shown as an error. *)
Theorem chat_turn_with_the_route props sentAt receivedAt openai w exchange s ms :
  trim (input s) <> EmptyString ->
  mapM on_the_wire (messages s) = Some ms ->
  answers_as_route openai w exchange (body_sent props s sentAt) ->
  let b := SecurityChat.mkChatBody
             (ms ++ [SecurityChat.mkMessage user (input s) sentAt])
             (feature props) (resourceName props) in
  let s' := (handleSendMessage props sentAt receivedAt exchange s).2 in
  parsed_body (body_sent props s sentAt) = Some b
  /\ exists answer,
       messages s'
       = messages s ++ [mkMessage user (Some (input s)) sentAt;
                        mkMessage assistant answer receivedAt]
       /\ console s' = console s
       /\ (forall c cs,
             openai (SecurityChat.chat_request b) = Returns (mkCompletion (c :: cs)) ->
             answer = Some (content (choice_message c)))
       /\ ((exists e, openai (SecurityChat.chat_request b) = Throws e) -> answer = None).
Proof.
  intros Hblank Hms (b' & r & Hb' & Hr & Hex) b s'.
  pose proof (parsed_body_sent props s sentAt ms Hms) as Hb.
  rewrite Hb in Hb'. injection Hb' as <-. fold b in Hb, Hr.
  split; [exact Hb|]. exists (message_member r).
  unfold s'. rewrite (handleSendMessage_run _ _ _ _ _ Hblank), Hex. simpl.
  split; [reflexivity|]. split; [reflexivity|].
  rewrite SecurityChatFacts.chat_POST_run in Hr. cbv zeta in Hr. split.
  - intros c cs Hc. rewrite Hc in Hr. simpl in Hr. by injection Hr as <-.
  - intros (e & He). rewrite He in Hr. simpl in Hr. by injection Hr as <-.
Qed.

Lemma chat_turn_with_the_route_witness :
  let props := mkProps RLS (Some "orders") "How to enable RLS for orders" in
  let s := typing "Where is the button?" (opened props "10:00") in
  let exchange := fun body =>
    match parsed_body body with
    | Some b =>
        match (SecurityChat.POST SecurityChat.canned (Returns b) start).1 with
        | Returns r => Returns (Value (message_member r))
        | Throws e => Throws e
        end
    | None => Throws (TypeError "no content")
    end in
  map bubble_content (messages (handleSendMessage props "10:01" "10:02" exchange s).2)
  = [ Some "I'm here to help you enable RLS for orders. How to enable RLS for orders";
      Some "Where is the button?";
      Some "Open Authentication > Policies." ].
Proof.
  intros props s exchange.
  destruct (chat_turn_with_the_route props "10:01" "10:02" SecurityChat.canned start
              exchange s
              [SecurityChat.mkMessage assistant
                 "I'm here to help you enable RLS for orders. How to enable RLS for orders"
                 "10:00"]
              ltac:(discriminate) eq_refl)
    as (_ & answer & Hmsgs & _ & Hanswer & _).
  - do 2 eexists. split; [reflexivity|]. split; reflexivity.
  - rewrite Hmsgs. rewrite (Hanswer _ _ eq_refl). reflexivity.
Defined.

End ChatWindowFacts.

(** * Properties of the dashboard *)

Module DashboardFacts.
Import RunChecks Dashboard.
#[local] Set Warnings "-clear-no-such-hyp".

Lemma handleRunChecks_run exchange s :
  handleRunChecks exchange s =
  (Returns tt,
   let failed e :=
     mkState (results s) false (chatOpen s) (selectedIssue s)
             (alerts s ++ [try_again])
             (console s ++ [mkConsoleLine "Error running checks:" (Some e)]) in
   match exchange with
   | Throws e => failed e
   | Returns response =>
       if ok response then
         mkState (Some (body response)) false (chatOpen s) (selectedIssue s)
                 (alerts s) (console s)
       else failed (mkError "Error" "Failed to fetch results")
   end).
Proof.
  unfold handleRunChecks, Eff.try_finally, Eff.try_catch, Eff.bind, Eff.modify,
    Eff.await, setResults, alert, console_error, setLoading, Eff.throw. simpl.
  destruct exchange as [response|e]; [|reflexivity].
  by destruct (ok response).
Qed.

(** X22.  The dashboard and the run-checks route fit together.  A press of
    the button never throws and ends with the loading flag off.  When the
    route answers a report, the report replaces the results and no alert
    is raised.  When it answers 401 or 500 -- the 500 of the handler, or
    that of the framework when the handler rejects -- the results stay what
    they were and the one alert [Failed to run checks. Please try again.]
    is raised: the page does not tell a missing session from a failed
    run. *)
Theorem dashboard_shows_report_or_alert platform req w s :
  let exchange := served (GET platform req w).1 in
  let s' := (handleRunChecks exchange s).2 in
  (handleRunChecks exchange s).1 = Returns tt
  /\ loading s' = false
  /\ chatOpen s' = chatOpen s /\ selectedIssue s' = selectedIssue s
  /\ ((exists mfa rls pitr logs,
         exchange = Returns (mkResponse 200 (Report mfa rls pitr logs))
         /\ results s' = Some (Report mfa rls pitr logs)
         /\ alerts s' = alerts s)
      \/ (exists code text details,
            exchange = Returns (mkResponse code (Failure text details))
            /\ (code = 401 \/ code = 500)
            /\ results s' = results s
            /\ alerts s' = alerts s ++ [try_again])).
Proof.
  intros exchange s'. unfold s'. rewrite handleRunChecks_run. cbv zeta. unfold exchange.
  destruct (RunChecksFacts.GET_answers platform req w)
    as [(mfa & rls & pitr & logs & ->)|[->|[(e & ->)|(e & _ & ->)]]]; simpl.
  - repeat split; try reflexivity. left. by exists mfa, rls, pitr, logs.
  - repeat split; try reflexivity. right. do 3 eexists. split; [reflexivity|].
    split; [by left | by split].
  - repeat split; try reflexivity. right. do 3 eexists. split; [reflexivity|].
    split; [by right | by split].
  - repeat split; try reflexivity. right. do 3 eexists. split; [reflexivity|].
    split; [by right | by split].
Qed.

(** X23.  The help the page offers for a relation agrees with the row the
    run logs for it: Get Help is shown exactly when the logged status is
    failing.  The badge follows the enablement flag alone, so a relation
    with the flag on and no policy is shown as [RLS Enabled] with help on
    adding policies, while a relation with the flag off is shown as
    [RLS Disabled] with help on enabling RLS. *)
Theorem rls_help_agrees_with_the_log (t : RlsRow) :
  (is_Some (rls_help (rls_result_of t)) <-> status (rls_row_of t) = false)
  /\ (row_rls_enabled t = true -> row_has_policies t = false ->
      rls_badge (rls_result_of t) = "RLS Enabled"
      /\ rls_help (rls_result_of t)
         = Some (mkIssue RLS (Some (table_name t))
                   ("How to add security policies for " +:+ table_name t)))
  /\ (row_rls_enabled t = false ->
      rls_badge (rls_result_of t) = "RLS Disabled"
      /\ rls_help (rls_result_of t)
         = Some (mkIssue RLS (Some (table_name t))
                   ("How to enable RLS for " +:+ table_name t))).
Proof.
  unfold rls_help, rls_badge, rls_result_of, rls_row_of, issue_row. simpl.
  destruct (row_rls_enabled t), (row_has_policies t); simpl;
    rewrite ?is_Some_alt; naive_solver.
Qed.

(** X24.  Of the rows a run writes, the page shows the suggested fix under
    exactly the failing ones and the chat button under exactly the failing
    RLS ones; the chat it opens carries the row's feature and the fix text
    of RLS as context. *)
Theorem log_chat_only_for_failing_rls platform req w :
  exists news,
    security_logs (GET platform req w).2 = security_logs w ++ news
    /\ Forall (fun log =>
                 (is_Some (log_fix log) <-> status (log_row log) = false)
                 /\ (is_Some (log_chat log)
                     <-> feature (log_row log) = RLS /\ status (log_row log) = false)
                 /\ (forall issue, log_chat log = Some issue ->
                       issue_feature issue = RLS
                       /\ context issue = suggestedFixes RLS))
              news.
Proof.
  destruct (RunChecksFacts.GET_appended platform req w) as (news & Hlogs & Hrows).
  exists news. split; [exact Hlogs|].
  eapply Forall_impl; [exact Hrows|]. cbv beta.
  assert (Hrow : forall log f s r,
            log_row log = issue_row f s r ->
            (is_Some (log_fix log) <-> status (log_row log) = false)
            /\ (is_Some (log_chat log)
                <-> feature (log_row log) = RLS /\ status (log_row log) = false)
            /\ (forall issue, log_chat log = Some issue ->
                  issue_feature issue = RLS /\ context issue = suggestedFixes RLS)).
  { intros log f s r Hlog. unfold log_fix, log_chat. rewrite Hlog.
    destruct f, s; simpl; rewrite ?is_Some_alt; naive_solver. }
  intros log [(us & u & _ & _ & H)|[(reply & rows & t & _ & _ & _ & _ & H)|(pr & _ & H)]];
    eapply Hrow; exact H.
Qed.

(** X25.  From a failing relation to the capability.  When Get Help is
    pressed on a relation with a non-empty name, the chat window is
    rendered for feature RLS and that relation; when the user then types a
    text that is not blank and presses Send, one body is posted, and the
    chat route, parsing it, sends the capability exactly three messages:
    the system message of RLS with the line naming the relation, the
    window's greeting, and the user's text.  Closing the window removes it
    and forgets the issue. *)
Theorem help_opens_chat_about_the_relation (t : RlsResult) issue s now sentAt receivedAt
    text exchange :
  rls_help t = Some issue ->
  table t <> EmptyString ->
  JsString.trim text <> EmptyString ->
  exists props greeting_text b,
    chat_props (open_help issue s) = Some props
    /\ ChatWindow.feature props = RLS
    /\ ChatWindow.resourceName props = Some (table t)
    /\ ChatWindow.bubble_content (ChatWindow.greeting props now) = Some greeting_text
    /\ (let window := ChatWindow.typing text (ChatWindow.opened props now) in
        ChatWindow.posts
          (ChatWindow.handleSendMessage props sentAt receivedAt exchange window).2
        = [ChatWindow.body_sent props window sentAt]
        /\ ChatWindow.parsed_body (ChatWindow.body_sent props window sentAt) = Some b)
    /\ messages (SecurityChat.chat_request b)
       = [ SecurityChat.seed RLS (Some (table t));
           mkChatMessage assistant greeting_text;
           mkChatMessage user text ]
    /\ SecurityChat.resource_line (Some (table t))
       = "Specifically for resource: " +:+ table t
    /\ chat_props (close_help (open_help issue s)) = None.
Proof.
  intros Hhelp Htable Htext.
  assert (exists ctx, issue = mkIssue RLS (Some (table t)) ctx) as [ctx ->].
  { unfold rls_help in Hhelp. destruct (_ || _); [|discriminate].
    injection Hhelp as <-. by eexists. }
  set (props := ChatWindow.mkProps RLS (Some (table t)) ctx).
  set (window := ChatWindow.typing text (ChatWindow.opened props now)).
  assert (Hblank : JsString.trim (ChatWindow.input window) <> EmptyString) by exact Htext.
  exists props. eexists. eexists.
  split; [reflexivity|]. split; [reflexivity|]. split; [reflexivity|].
  split; [reflexivity|]. split; [split|].
  - rewrite (ChatWindowFacts.handleSendMessage_run _ _ _ _ _ Hblank).
    by destruct (exchange _) as [[|answer]|e].
  - by apply ChatWindowFacts.parsed_body_sent.
  - split; [reflexivity|]. split; [|reflexivity].
    unfold SecurityChat.resource_line, truthy_str.
    apply String.eqb_neq in Htable. by rewrite Htable.
Qed.

Lemma help_opens_chat_about_the_relation_witness :
  exists props greeting_text b,
    chat_props (open_help (mkIssue RLS (Some "drafts")
                             "How to add security policies for drafts") idle)
    = Some props
    /\ ChatWindow.bubble_content (ChatWindow.greeting props "10:00") = Some greeting_text
    /\ messages (SecurityChat.chat_request b)
       = [ SecurityChat.seed RLS (Some "drafts");
           mkChatMessage assistant greeting_text;
           mkChatMessage user "What now?" ].
Proof.
  destruct (help_opens_chat_about_the_relation
              (mkRlsResult "drafts" true false 0) _ idle "10:00" "10:01" "10:02"
              "What now?" (fun _ => Returns (ChatWindow.Value None))
              eq_refl ltac:(discriminate) ltac:(discriminate))
    as (props & greeting_text & b & Hprops & _ & _ & Hgreet & _ & Hmsgs & _).
  by exists props, greeting_text, b.
Defined.

End DashboardFacts.
